(** * CouponDeck API: a shallow embedding of [src/api/index.py]

    The FastAPI handlers are embedded as functions in a small state and
    exception monad over the two pieces of mutable state the module owns:
    the in-process dictionary [admin_sessions] and the MongoDB collection
    [db.coupons].  Documents and Python dictionaries are finite maps from
    keys to dynamically typed values.  Values that the handlers obtain from
    the outside world (the bytes of [os.urandom], [uuid.uuid4()],
    [datetime.now(timezone.utc)]) are explicit arguments.

    The library functions the handlers call ([str.replace], [str.lower],
    [base64.b64encode], [secrets.token_urlsafe], [datetime.isoformat],
    [datetime.fromisoformat], the collection methods of the Mongo driver) are
    modelled in the first part of the file.  A [str] is modelled by the
    sequence of 8-bit characters of its UTF-8 text, on which prefixes,
    substrings and replacements are those of the text.  [str.lower] folds case
    by the tables of the Unicode database, which are no part of this
    repository: the handlers that call it take the folding as a parameter
    [lower], and the statements about them hold for every folding.  Each
    handler runs its store operations in program order; interleavings of
    concurrent requests are outside the model. *)

From Stdlib Require Import Ascii String NArith ZArith Lia.
From stdpp Require Import gmap strings list fin_maps.

Open Scope string_scope.

(** ** Python [str] methods *)

Module PyStr.

(** [s.startswith(p)] *)
Definition startswith (s p : string) : bool := String.prefix p s.

(** [sub in s] *)
Fixpoint contains (sub s : string) : bool :=
  String.prefix sub s ||
  match s with
  | EmptyString => false
  | String _ s' => contains sub s'
  end.

Definition lower_char (c : ascii) : ascii :=
  let n := N_of_ascii c in
  if ((65 <=? n) && (n <=? 90))%N then ascii_of_N (n + 32) else c.

(** [s.lower()] on ASCII text, where it folds the letters [A] to [Z] and
    nothing else.  It is the folding the examples run with. *)
Fixpoint lower_ascii (s : string) : string :=
  match s with
  | EmptyString => EmptyString
  | String c s' => String (lower_char c) (lower_ascii s')
  end.

(** [s.replace(old, new)] for a non-empty [old]: every occurrence of [old],
    scanning from the left and without overlap, is replaced.  [skip] counts
    the characters of a matched occurrence that are still to be dropped. *)
Fixpoint replace_from (old new : string) (skip : nat) (s : string) : string :=
  match s with
  | EmptyString => EmptyString
  | String c s' =>
      match skip with
      | S k => replace_from old new k s'
      | O =>
          if String.prefix old s
          then new +:+ replace_from old new (String.length old - 1) s'
          else String c (replace_from old new O s')
      end
  end.

Definition replace (s old new : string) : string := replace_from old new 0 s.

(** [s.rstrip(c)] for a single character [c] *)
Fixpoint rstrip (c : ascii) (s : string) : string :=
  match s with
  | EmptyString => EmptyString
  | String x s' =>
      match rstrip c s' with
      | EmptyString => if Ascii.eqb x c then EmptyString else String x EmptyString
      | r => String x r
      end
  end.

Fixpoint all_chars (p : ascii → bool) (s : string) : bool :=
  match s with
  | EmptyString => true
  | String c s' => p c && all_chars p s'
  end.

End PyStr.

(** ** [base64] and [secrets] *)

Module Base64.

Abbreviation bytes := (list Byte.byte).

Definition std_alphabet : string :=
  "ABCDEFGHIJKLMNOPQRSTUVWXYZabcdefghijklmnopqrstuvwxyz0123456789+/".

(** the alphabet of [urlsafe_b64encode]: [+] and [/] become [-] and [_] *)
Definition url_alphabet : string :=
  "ABCDEFGHIJKLMNOPQRSTUVWXYZabcdefghijklmnopqrstuvwxyz0123456789-_".

Definition pad : ascii := "="%char.

Definition digit (alphabet : string) (i : N) : ascii :=
  match String.get (N.to_nat i) alphabet with
  | Some c => c
  | None => pad
  end.

(** Three bytes give four 6-bit digits; a last group of one or two bytes
    gives two or three digits and is padded with [=] to four characters. *)
Fixpoint encode (alphabet : string) (bs : bytes) : string :=
  match bs with
  | [] => EmptyString
  | [a] =>
      let x := Byte.to_N a in
      String (digit alphabet (x / 4))
        (String (digit alphabet ((x mod 4) * 16))
           (String pad (String pad EmptyString)))
  | [a; b] =>
      let x := Byte.to_N a in
      let y := Byte.to_N b in
      String (digit alphabet (x / 4))
        (String (digit alphabet ((x mod 4) * 16 + y / 16))
           (String (digit alphabet ((y mod 16) * 4))
              (String pad EmptyString)))
  | a :: b :: c :: rest =>
      let x := Byte.to_N a in
      let y := Byte.to_N b in
      let z := Byte.to_N c in
      String (digit alphabet (x / 4))
        (String (digit alphabet ((x mod 4) * 16 + y / 16))
           (String (digit alphabet ((y mod 16) * 4 + z / 64))
              (String (digit alphabet (z mod 64))
                 (encode alphabet rest))))
  end%N.

(** [base64.b64encode(bs).decode('utf-8')] *)
Definition b64encode (bs : bytes) : string := encode std_alphabet bs.

(** [base64.urlsafe_b64encode(bs)] *)
Definition urlsafe_b64encode (bs : bytes) : string := encode url_alphabet bs.

(** [os.urandom(n)]: the next [n] bytes of the system's random source.
    [entropy] is what the source delivers at the call. *)
Definition urandom (n : nat) (entropy : bytes) : bytes := take n entropy.

(** [secrets.token_urlsafe(nbytes)]:
    [tok = token_bytes(nbytes)], which is [os.urandom(nbytes)], then
    [base64.urlsafe_b64encode(tok).rstrip(b'=').decode('ascii')]. *)
Definition token_urlsafe (nbytes : nat) (entropy : bytes) : string :=
  let tok := urandom nbytes entropy in
  PyStr.rstrip pad (urlsafe_b64encode tok).

(** The inverse direction, used to show that the encoding loses nothing. *)
Fixpoint index_from (c : ascii) (alphabet : string) (i : N) : N :=
  match alphabet with
  | EmptyString => i
  | String x rest => if Ascii.eqb x c then i else index_from c rest (N.succ i)
  end.

Definition index (alphabet : string) (c : ascii) : N := index_from c alphabet 0.

Definition byte_of_N (n : N) : Byte.byte :=
  match Byte.of_N n with
  | Some b => b
  | None => Byte.x00
  end.

Definition byte1 (i1 i2 : N) : Byte.byte := byte_of_N (i1 * 4 + i2 / 16)%N.
Definition byte2 (i2 i3 : N) : Byte.byte := byte_of_N ((i2 mod 16) * 16 + i3 / 4)%N.
Definition byte3 (i3 i4 : N) : Byte.byte := byte_of_N ((i3 mod 4) * 64 + i4)%N.

(** Decoding of a padded or a stripped encoding. *)
Fixpoint decode (alphabet : string) (s : string) : bytes :=
  match s with
  | String c1 (String c2 EmptyString) =>
      [byte1 (index alphabet c1) (index alphabet c2)]
  | String c1 (String c2 (String c3 EmptyString)) =>
      [byte1 (index alphabet c1) (index alphabet c2);
       byte2 (index alphabet c2) (index alphabet c3)]
  | String c1 (String c2 (String c3 (String c4 rest))) =>
      let i1 := index alphabet c1 in
      let i2 := index alphabet c2 in
      let i3 := index alphabet c3 in
      let i4 := index alphabet c4 in
      if Ascii.eqb c3 pad then [byte1 i1 i2]
      else if Ascii.eqb c4 pad then [byte1 i1 i2; byte2 i2 i3]
      else byte1 i1 i2 :: byte2 i2 i3 :: byte3 i3 i4 :: decode alphabet rest
  | _ => []
  end.

(** The characters an URL may carry unescaped: letters, digits, [-], [_]. *)
Definition urlsafe_char (c : ascii) : bool :=
  let n := N_of_ascii c in
  (((65 <=? n) && (n <=? 90)) || ((97 <=? n) && (n <=? 122)) ||
   ((48 <=? n) && (n <=? 57)) || (n =? 45) || (n =? 95))%N.

End Base64.

(** ** [datetime] *)

Module Datetime.

(** An aware or naive [datetime].  [tzinfo] is the UTC offset in whole
    minutes; [timezone.utc] is [Some 0]. *)
Record datetime := mk_datetime {
  year : N;
  month : N;
  day : N;
  hour : N;
  minute : N;
  second : N;
  microsecond : N;
  tzinfo : option Z
}.

Definition is_leap (y : N) : bool :=
  ((y mod 4 =? 0) && (negb (y mod 100 =? 0) || (y mod 400 =? 0)))%N.

Definition days_in_month (y m : N) : N :=
  if (m =? 2)%N then (if is_leap y then 29 else 28)%N
  else if ((m =? 4) || (m =? 6) || (m =? 9) || (m =? 11))%N then 30%N
  else 31%N.

(** The ranges the [datetime] constructor enforces. *)
Definition valid_tz (tz : option Z) : bool :=
  match tz with
  | None => true
  | Some off => ((-1440 <? off) && (off <? 1440))%Z
  end.

Definition valid (d : datetime) : bool :=
  ((1 <=? year d) && (year d <=? 9999) &&
   (1 <=? month d) && (month d <=? 12) &&
   (1 <=? day d) && (day d <=? days_in_month (year d) (month d)) &&
   (hour d <? 24) && (minute d <? 60) && (second d <? 60) &&
   (microsecond d <? 1000000))%N && valid_tz (tzinfo d).

Definition digit_char (n : N) : ascii := ascii_of_N (48 + n).

(** ["%0kd" % n] for [n < 10^k]: the [k] decimal digits of [n]. *)
Fixpoint zero_padded (k : nat) (n : N) : string :=
  match k with
  | O => EmptyString
  | S k' => String (digit_char ((n / 10 ^ N.of_nat k') mod 10)) (zero_padded k' n)
  end.

Definition format_offset (tz : option Z) : string :=
  match tz with
  | None => EmptyString
  | Some off =>
      let a := Z.to_N (Z.abs off) in
      String (if (off <? 0)%Z then "-"%char else "+"%char)
        (zero_padded 2 (a / 60) +:+ ":" +:+ zero_padded 2 (a mod 60))
  end.

(** [d.isoformat()]: [YYYY-MM-DDTHH:MM:SS], then [.ffffff] when the
    microsecond is not zero, then the UTC offset [+HH:MM] when aware. *)
Definition isoformat (d : datetime) : string :=
  zero_padded 4 (year d) +:+ "-" +:+ zero_padded 2 (month d) +:+ "-" +:+
  zero_padded 2 (day d) +:+ "T" +:+
  zero_padded 2 (hour d) +:+ ":" +:+ zero_padded 2 (minute d) +:+ ":" +:+
  zero_padded 2 (second d) +:+
  (if (microsecond d =? 0)%N then EmptyString
   else "." +:+ zero_padded 6 (microsecond d)) +:+
  format_offset (tzinfo d).

Definition digit_val (c : ascii) : option N :=
  let n := N_of_ascii c in
  if ((48 <=? n) && (n <=? 57))%N then Some (n - 48)%N else None.

(** Read exactly [k] decimal digits. *)
Fixpoint read_digits (k : nat) (acc : N) (s : string) : option (N * string) :=
  match k with
  | O => Some (acc, s)
  | S k' =>
      match s with
      | EmptyString => None
      | String c s' =>
          match digit_val c with
          | Some v => read_digits k' (acc * 10 + v)%N s'
          | None => None
          end
      end
  end.

Definition expect (c : ascii) (s : string) : option string :=
  match s with
  | EmptyString => None
  | String x s' => if Ascii.eqb x c then Some s' else None
  end.

Definition read_fraction (s : string) : option (N * string) :=
  match s with
  | String "." s' => read_digits 6 0 s'
  | _ => Some (0%N, s)
  end.

Definition read_offset (s : string) : option (option Z) :=
  match s with
  | EmptyString => Some None
  | String sg s1 =>
      if Ascii.eqb sg "+" || Ascii.eqb sg "-" then
        '(hh, s2) ← read_digits 2 0 s1;
        s3 ← expect ":" s2;
        '(mm, s4) ← read_digits 2 0 s3;
        match s4 with
        | EmptyString =>
            let off := Z.of_N (hh * 60 + mm) in
            Some (Some (if Ascii.eqb sg "-" then (- off)%Z else off))
        | _ => None
        end
      else None
  end.

(** [datetime.fromisoformat(s)] on the strings [isoformat] writes; [None]
    stands for [ValueError].  The fields are range-checked as the
    constructor does. *)
Definition fromisoformat (s : string) : option datetime :=
  '(y, s) ← read_digits 4 0 s;
  s ← expect "-" s;
  '(mo, s) ← read_digits 2 0 s;
  s ← expect "-" s;
  '(d, s) ← read_digits 2 0 s;
  s ← expect "T" s;
  '(h, s) ← read_digits 2 0 s;
  s ← expect ":" s;
  '(mi, s) ← read_digits 2 0 s;
  s ← expect ":" s;
  '(sec, s) ← read_digits 2 0 s;
  '(us, s) ← read_fraction s;
  tz ← read_offset s;
  let r := mk_datetime y mo d h mi sec us tz in
  if valid r then Some r else None.

#[global] Instance datetime_eq_dec : EqDecision datetime.
Proof. solve_decision. Defined.

End Datetime.

Export Datetime(datetime, mk_datetime, isoformat, fromisoformat).

(** ** Values, dictionaries and the pydantic models *)

(** The Python values that occur in documents and in dumped models. *)
Inductive value :=
  | VNone
  | VBool (b : bool)
  | VStr (s : string)
  | VDatetime (d : datetime).

#[global] Instance value_eq_dec : EqDecision value.
Proof. solve_decision. Defined.

(** A Python [dict] with string keys, and a document of the collection as
    the driver returns it under the projection [{"_id": 0}]. *)
Abbreviation dict := (gmap string value).

Definition of_optional (o : option string) : value :=
  match o with
  | Some s => VStr s
  | None => VNone
  end.

Definition of_optional_bool (o : option bool) : value :=
  match o with
  | Some b => VBool b
  | None => VNone
  end.

Module Coupon.
Record t := mk {
  id : string;
  store_name : string;
  logo_url : option string;
  title : string;
  code : string;
  description : string;
  category : string;
  expiry_date : string;
  featured : bool;
  created_at : datetime
}.

Definition model_dump (c : t) : dict :=
  list_to_map
    [("id", VStr (id c));
     ("store_name", VStr (store_name c));
     ("logo_url", of_optional (logo_url c));
     ("title", VStr (title c));
     ("code", VStr (code c));
     ("description", VStr (description c));
     ("category", VStr (category c));
     ("expiry_date", VStr (expiry_date c));
     ("featured", VBool (featured c));
     ("created_at", VDatetime (created_at c))].
End Coupon.

Module CouponCreate.
Record t := mk {
  store_name : string;
  logo_url : option string;
  title : string;
  code : string;
  description : string;
  category : string;
  expiry_date : string;
  featured : bool
}.
End CouponCreate.

Module CouponUpdate.
Record t := mk {
  store_name : option string;
  logo_url : option string;
  title : option string;
  code : option string;
  description : option string;
  category : option string;
  expiry_date : option string;
  featured : option bool
}.

Definition model_dump (u : t) : dict :=
  list_to_map
    [("store_name", of_optional (store_name u));
     ("logo_url", of_optional (logo_url u));
     ("title", of_optional (title u));
     ("code", of_optional (code u));
     ("description", of_optional (description u));
     ("category", of_optional (category u));
     ("expiry_date", of_optional (expiry_date u));
     ("featured", of_optional_bool (featured u))].

(** A member of the JSON body of a [PUT]: left out, [null], or a value. *)
Inductive member (A : Type) :=
  | Omitted
  | Null
  | Given (a : A).
Arguments Omitted {A}.
Arguments Null {A}.
Arguments Given {A} a.

Record body := mk_body {
  b_store_name : member string;
  b_logo_url : member string;
  b_title : member string;
  b_code : member string;
  b_description : member string;
  b_category : member string;
  b_expiry_date : member string;
  b_featured : member bool
}.

(** Every field is declared [Optional[...] = None]: a member that is left
    out takes the default [None], and [null] validates to [None]. *)
Definition field {A} (m : member A) : option A :=
  match m with
  | Omitted => None
  | Null => None
  | Given a => Some a
  end.

(** The model FastAPI builds from the request body. *)
Definition validate (b : body) : t :=
  mk (field (b_store_name b)) (field (b_logo_url b)) (field (b_title b))
     (field (b_code b)) (field (b_description b)) (field (b_category b))
     (field (b_expiry_date b)) (field (b_featured b)).
End CouponUpdate.

Module AdminLogin.
Record t := mk { username : string; password : string }.
End AdminLogin.

Module AdminLoginResponse.
Record t := mk { token : string; message : string }.
End AdminLoginResponse.

Module UploadFile.
Record t := mk { content_type : option string; contents : Base64.bytes }.
End UploadFile.

(** ** State and exceptions *)

(** [ADMIN_USERNAME] and [ADMIN_PASSWORD], read from the environment when
    the module is loaded. *)
Record settings := mk_settings {
  ADMIN_USERNAME : string;
  ADMIN_PASSWORD : string
}.

(** The values used when the environment does not set them. *)
Definition default_settings : settings :=
  mk_settings "raj2151" "passraj2151".

(** [admin_sessions] and the collection [db.coupons], in store order.
    [writes] is a ghost counter of the write commands ([insert_one],
    [update_one], [delete_one]) sent to the store. *)
Record state := mk_state {
  admin_sessions : gmap string dict;
  coupons : list dict;
  writes : nat
}.

Inductive exn :=
  | HTTPException (status_code : Z) (detail : string)
  | ValueError
  | AttributeError.

Inductive result (A : Type) :=
  | Return (a : A)
  | Raise (e : exn).
Arguments Return {A} a.
Arguments Raise {A} e.

#[global] Instance result_ret : MRet result := @Return.
#[global] Instance result_bind : MBind result :=
  λ A B f m, match m with Return a => f a | Raise e => Raise e end.

(** A handler runs on the state and returns or raises; what it wrote
    before raising stays written. *)
Definition handler (A : Type) : Type := state → result A * state.

#[global] Instance handler_ret : MRet handler := λ A a st, (Return a, st).
#[global] Instance handler_bind : MBind handler :=
  λ A B f m st,
    match m st with
    | (Return a, st') => f a st'
    | (Raise e, st') => (Raise e, st')
    end.

Definition raise {A} (e : exn) : handler A := λ st, (Raise e, st).

Definition lift {A} (r : result A) : handler A := λ st, (r, st).

(** ** The collection methods of the driver *)

(** A filter document [{k1: v1, ...}] selects the documents whose field
    [ki] equals [vi], for every [i]. *)
Definition matches (query d : dict) : Prop :=
  map_Forall (λ k v, d !! k = Some v) query.

#[global] Instance matches_dec query d : Decision (matches query d).
Proof. unfold matches. apply _. Defined.

(** [find(query, {"_id": 0}).to_list(n)] *)
Definition find_to_list (query : dict) (n : nat) : handler (list dict) :=
  λ st, (Return (take n (filter (matches query) (coupons st))), st).

(** [find_one(query, {"_id": 0})] *)
Definition find_one (query : dict) : handler (option dict) :=
  λ st, (Return (head (filter (matches query) (coupons st))), st).

(** [insert_one(doc)] *)
Definition insert_one (doc : dict) : handler unit :=
  λ st, (Return (),
         mk_state (admin_sessions st) (coupons st ++ [doc]) (S (writes st))).

Fixpoint set_first (query fields : dict) (c : list dict) : list dict :=
  match c with
  | [] => []
  | d :: c' =>
      if decide (matches query d) then (fields ∪ d) :: c'
      else d :: set_first query fields c'
  end.

(** [update_one(query, {"$set": fields})] *)
Definition update_one (query fields : dict) : handler unit :=
  λ st, (Return (),
         mk_state (admin_sessions st) (set_first query fields (coupons st))
           (S (writes st))).

Fixpoint remove_first (query : dict) (c : list dict) : nat * list dict :=
  match c with
  | [] => (0, [])
  | d :: c' =>
      if decide (matches query d) then (1, c')
      else let '(n, r) := remove_first query c' in (n, d :: r)
  end.

(** [delete_one(query)]; the result is [deleted_count]. *)
Definition delete_one (query : dict) : handler nat :=
  λ st, let '(n, c) := remove_first query (coupons st) in
        (Return n, mk_state (admin_sessions st) c (S (writes st))).

(** ** The handlers *)

(** The conversion both read paths apply to a fetched document:
    [if isinstance(coupon.get('created_at'), str):
       coupon['created_at'] = datetime.fromisoformat(coupon['created_at'])] *)
Definition read_created_at (coupon : dict) : result dict :=
  match coupon !! "created_at" with
  | Some (VStr s) =>
      match fromisoformat s with
      | Some t => Return (<["created_at" := VDatetime t]> coupon)
      | None => Raise ValueError
      end
  | _ => Return coupon
  end.

(** [c.get(k, '').lower()]; only a [str] has the method.  [lower] is
    [str.lower]. *)
Definition get_lower (lower : string → string) (c : dict) (k : string)
  : result string :=
  match c !! k with
  | None => Return (lower "")
  | Some (VStr s) => Return (lower s)
  | Some _ => Raise AttributeError
  end.

(** The condition of the search comprehension; [or] evaluates its right
    operand only when the left one is false. *)
Definition search_hit (lower : string → string) (search_lower : string)
    (c : dict) : result bool :=
  s ← get_lower lower c "store_name";
  if PyStr.contains search_lower s then Return true
  else
    t ← get_lower lower c "title";
    if PyStr.contains search_lower t then Return true
    else
      g ← get_lower lower c "category";
      Return (PyStr.contains search_lower g).

Fixpoint comprehension {A} (p : A → result bool) (l : list A) : result (list A) :=
  match l with
  | [] => Return []
  | x :: l' =>
      b ← p x;
      r ← comprehension p l';
      Return (if b : bool then x :: r else r)
  end.

(** Truth value of a string: the empty string is false. *)
Definition truthy (s : string) : bool :=
  match s with
  | EmptyString => false
  | String _ _ => true
  end.

Definition get_coupons (lower : string → string)
    (category search : option string) (featured : option bool)
  : handler (list dict) :=
  let query : dict := ∅ in
  let query :=
    match category with
    | Some c => if truthy c then <["category" := VStr c]> query else query
    | None => query
    end in
  let query :=
    match featured with
    | Some f => <["featured" := VBool f]> query
    | None => query
    end in
  coupons ← find_to_list query 1000;
  coupons ← lift (mapM read_created_at coupons);
  match search with
  | Some s =>
      if truthy s
      then lift (comprehension (search_hit lower (lower s)) coupons)
      else mret coupons
  | None => mret coupons
  end.

(** [not coupon] for the result of [find_one]: [None] or an empty dict. *)
Definition missing (coupon : option dict) : bool :=
  match coupon with
  | None => true
  | Some d => bool_decide (d = ∅)
  end.

Definition get_coupon (coupon_id : string) : handler dict :=
  coupon ← find_one {["id" := VStr coupon_id]};
  if missing coupon then raise (HTTPException 404 "Coupon not found")
  else
    match coupon with
    | Some c => lift (read_created_at c)
    | None => raise AttributeError
    end.

(** [entropy] is what the random source delivers and [now] the value of
    [datetime.now(timezone.utc)] at the call. *)
Definition admin_login (cfg : settings) (credentials : AdminLogin.t)
    (entropy : Base64.bytes) (now : datetime) : handler AdminLoginResponse.t :=
  if bool_decide (AdminLogin.username credentials = ADMIN_USERNAME cfg)
     && bool_decide (AdminLogin.password credentials = ADMIN_PASSWORD cfg)
  then
    let token := Base64.token_urlsafe 32 entropy in
    λ st,
      (Return (AdminLoginResponse.mk token "Login successful"),
       mk_state
         (<[token := list_to_map [("username", VStr (ADMIN_USERNAME cfg));
                                  ("logged_in_at", VDatetime now)]]>
            (admin_sessions st))
         (coupons st) (writes st))
  else raise (HTTPException 401 "Invalid credentials").

Definition verify_admin_token (authorization : option string) : handler string :=
  match authorization with
  | None => raise (HTTPException 401 "Not authenticated")
  | Some a =>
      if negb (truthy a) || negb (PyStr.startswith a "Bearer ")
      then raise (HTTPException 401 "Not authenticated")
      else
        let token := PyStr.replace a "Bearer " "" in
        λ st,
          match admin_sessions st !! token with
          | None => (Raise (HTTPException 401 "Invalid or expired token"), st)
          | Some _ => (Return token, st)
          end
  end.

(** [uuid] is the value of [str(uuid.uuid4())] and [now] the value of
    [datetime.now(timezone.utc)] taken by the default factories. *)
Definition create_coupon (coupon : CouponCreate.t) (authorization : option string)
    (uuid : string) (now : datetime) : handler Coupon.t :=
  _ ← verify_admin_token authorization;
  let coupon_obj :=
    Coupon.mk uuid
      (CouponCreate.store_name coupon) (CouponCreate.logo_url coupon)
      (CouponCreate.title coupon) (CouponCreate.code coupon)
      (CouponCreate.description coupon) (CouponCreate.category coupon)
      (CouponCreate.expiry_date coupon) (CouponCreate.featured coupon) now in
  let doc := Coupon.model_dump coupon_obj in
  let doc := <["created_at" := VStr (isoformat now)]> doc in
  _ ← insert_one doc;
  mret coupon_obj.

(** [{k: v for k, v in coupon_update.model_dump().items() if v is not None}] *)
Definition update_data (coupon_update : CouponUpdate.t) : dict :=
  filter (λ kv : string * value, kv.2 ≠ VNone) (CouponUpdate.model_dump coupon_update).

Definition update_coupon (coupon_id : string) (coupon_update : CouponUpdate.t)
    (authorization : option string) : handler dict :=
  _ ← verify_admin_token authorization;
  existing ← find_one {["id" := VStr coupon_id]};
  if missing existing then raise (HTTPException 404 "Coupon not found")
  else
    let update_data := update_data coupon_update in
    _ ← (if bool_decide (update_data = ∅) then mret ()
         else update_one {["id" := VStr coupon_id]} update_data);
    updated_coupon ← find_one {["id" := VStr coupon_id]};
    match updated_coupon with
    | Some c => lift (read_created_at c)
    | None => raise AttributeError
    end.

Definition delete_coupon (coupon_id : string) (authorization : option string)
  : handler dict :=
  _ ← verify_admin_token authorization;
  deleted_count ← delete_one {["id" := VStr coupon_id]};
  if decide (deleted_count = 0)
  then raise (HTTPException 404 "Coupon not found")
  else mret {["message" := VStr "Coupon deleted successfully"]}.

Definition upload_logo (file : UploadFile.t) (authorization : option string)
  : handler dict :=
  _ ← verify_admin_token authorization;
  match UploadFile.content_type file with
  | None => raise (HTTPException 400 "File must be an image")
  | Some content_type =>
      if negb (truthy content_type) || negb (PyStr.startswith content_type "image/")
      then raise (HTTPException 400 "File must be an image")
      else
        let contents := UploadFile.contents file in
        let base64_encoded := Base64.b64encode contents in
        let data_url := "data:" +:+ content_type +:+ ";base64," +:+ base64_encoded in
        mret {["url" := VStr data_url]}
  end.

(** ** Requests *)

(** One call of a mutating admin route, with the values it draws. *)
Inductive admin_request :=
  | Create (coupon : CouponCreate.t) (authorization : option string)
      (uuid : string) (now : datetime)
  | Update (coupon_id : string) (coupon_update : CouponUpdate.t)
      (authorization : option string)
  | Delete (coupon_id : string) (authorization : option string)
  | Upload (file : UploadFile.t) (authorization : option string).

Definition authorization_of (r : admin_request) : option string :=
  match r with
  | Create _ a _ _ => a
  | Update _ _ a => a
  | Delete _ a => a
  | Upload _ a => a
  end.

(** The outcome of a request, with the returned value forgotten. *)
Definition outcome {A} (r : result A * state) : option exn * state :=
  match r with
  | (Return _, st) => (None, st)
  | (Raise e, st) => (Some e, st)
  end.

Definition run (r : admin_request) (st : state) : option exn * state :=
  match r with
  | Create c a u n => outcome (create_coupon c a u n st)
  | Update i u a => outcome (update_coupon i u a st)
  | Delete i a => outcome (delete_coupon i a st)
  | Upload f a => outcome (upload_logo f a st)
  end.

(** A sequence of [PUT] requests, run in order. *)
Fixpoint updates (rs : list (string * CouponUpdate.t * option string)) (st : state)
  : state :=
  match rs with
  | [] => st
  | (i, u, a) :: rs' => updates rs' (update_coupon i u a st).2
  end.

(** ** Vocabulary of the statements *)

(** The structured filters of a list query: a category that is given and
    not empty, and a featured flag that is given, must be equal to the
    document's. *)
Definition selected (category : option string) (featured : option bool)
    (d : dict) : Prop :=
  match category with
  | Some c => c = "" ∨ d !! "category" = Some (VStr c)
  | None => True
  end ∧
  match featured with
  | Some f => d !! "featured" = Some (VBool f)
  | None => True
  end.

#[global] Instance selected_dec category featured d :
  Decision (selected category featured d).
Proof. unfold selected. destruct category, featured; apply _. Defined.

(** The text of a field, empty when the document has no such field. *)
Definition text (d : dict) (k : string) : string :=
  match d !! k with
  | Some (VStr s) => s
  | _ => ""
  end.

(** Case-insensitive substring match against any of the three fields:
    the term and the field are compared after folding both with [lower]. *)
Definition search_match (lower : string → string) (search : string) (d : dict)
  : Prop :=
  PyStr.contains (lower search) (lower (text d "store_name")) = true ∨
  PyStr.contains (lower search) (lower (text d "title")) = true ∨
  PyStr.contains (lower search) (lower (text d "category")) = true.

#[global] Instance search_match_dec lower search d :
  Decision (search_match lower search d).
Proof. unfold search_match. apply _. Defined.

(** The three searched fields hold strings, where present. *)
Definition textual (d : dict) : Prop :=
  Forall (λ k, match d !! k with
               | None | Some (VStr _) => True
               | Some _ => False
               end) ["store_name"; "title"; "category"].

#[global] Instance textual_dec d : Decision (textual d).
Proof.
  unfold textual. apply Forall_dec. intros k.
  destruct (d !! k) as [[| | |]|]; apply _.
Defined.

(** The request succeeds the authorization check in state [st]. *)
Definition authorized (authorization : option string) (st : state) : Prop :=
  ∃ token, verify_admin_token authorization st = (Return token, st).

(** Some document of the collection has this id. *)
Definition exists_id (coupon_id : string) (st : state) : Prop :=
  Exists (λ d, d !! "id" = Some (VStr coupon_id)) (coupons st).

#[global] Instance exists_id_dec coupon_id st : Decision (exists_id coupon_id st).
Proof. unfold exists_id. apply _. Defined.

(** The body [{}] of a [PUT]. *)
Definition empty_body : CouponUpdate.body :=
  CouponUpdate.mk_body CouponUpdate.Omitted CouponUpdate.Omitted
    CouponUpdate.Omitted CouponUpdate.Omitted CouponUpdate.Omitted
    CouponUpdate.Omitted CouponUpdate.Omitted CouponUpdate.Omitted.

(** The id and the creation time of every document, in store order. *)
Definition identities (st : state) : list (option value * option value) :=
  (λ d : dict, (d !! "id", d !! "created_at")) <$> coupons st.

(** What a member of the body makes of a field: only a given value is
    applied; a member that is left out or [null] applies nothing. *)
Definition applied {A} (inj : A → value) (m : CouponUpdate.member A) : option value :=
  match m with
  | CouponUpdate.Given a => Some (inj a)
  | CouponUpdate.Omitted | CouponUpdate.Null => None
  end.

(** The value a body applies to the field [k] of the stored document. *)
Definition provided (b : CouponUpdate.body) (k : string) : option value :=
  if decide (k = "store_name") then applied VStr (CouponUpdate.b_store_name b)
  else if decide (k = "logo_url") then applied VStr (CouponUpdate.b_logo_url b)
  else if decide (k = "title") then applied VStr (CouponUpdate.b_title b)
  else if decide (k = "code") then applied VStr (CouponUpdate.b_code b)
  else if decide (k = "description") then applied VStr (CouponUpdate.b_description b)
  else if decide (k = "category") then applied VStr (CouponUpdate.b_category b)
  else if decide (k = "expiry_date") then applied VStr (CouponUpdate.b_expiry_date b)
  else if decide (k = "featured") then applied VBool (CouponUpdate.b_featured b)
  else None.

(** ** Sample data *)

Definition sample_now : datetime := mk_datetime 2025 12 31 23 59 58 120034 (Some 0%Z).

Definition sample_entropy : Base64.bytes := replicate 32 Byte.x00.

Definition other_entropy : Base64.bytes := replicate 32 Byte.xff.

(** [token_urlsafe(32)] for [sample_entropy]. *)
Definition sample_token : string := "AAAAAAAAAAAAAAAAAAAAAAAAAAAAAAAAAAAAAAAAAAA".

Definition admin : AdminLogin.t := AdminLogin.mk "raj2151" "passraj2151".

Definition fresh_state : state := mk_state ∅ [] 0.

(** The state after one successful login. *)
Definition logged_in : state :=
  (admin_login default_settings admin sample_entropy sample_now fresh_state).2.

Definition bearer : option string := Some ("Bearer " +:+ sample_token).

(** The header ["Bearer Bearer <token>"]: the scheme, then a candidate
    that is the scheme and the token. *)
Definition nested_bearer : option string :=
  Some ("Bearer " +:+ "Bearer " +:+ sample_token).

Definition nike : CouponCreate.t :=
  CouponCreate.mk "Nike" (Some "https://cdn.test/nike.png") "20% off" "NIKE20" "d"
    "Fashion" "2025-12-31" false.

(** The state after the admin created the coupon [nike]. *)
Definition one_coupon : state :=
  (create_coupon nike bearer "c-1" sample_now logged_in).2.

Definition png : UploadFile.t :=
  UploadFile.mk (Some "image/png") [Byte.x89; Byte.x50; Byte.x4e; Byte.x47].

Definition adidas : CouponCreate.t :=
  CouponCreate.mk "Adidas" None "Free socks" "SOCKS" "with any shoes"
    "Fashion" "2026-01-31" true.

(** The state after the admin created [nike] and then [adidas]. *)
Definition two_coupons : state :=
  (create_coupon adidas bearer "c-2" sample_now one_coupon).2.

(** What the listing of the category ["Fashion"] returns then. *)
Definition fashion_coupons : list dict :=
  match (get_coupons PyStr.lower_ascii (Some "Fashion") None None two_coupons).1 with
  | Return l => l
  | Raise _ => []
  end.

(** The body [{"logo_url": null}] of a [PUT]. *)
Definition null_logo_body : CouponUpdate.body :=
  CouponUpdate.mk_body CouponUpdate.Omitted CouponUpdate.Null
    CouponUpdate.Omitted CouponUpdate.Omitted CouponUpdate.Omitted
    CouponUpdate.Omitted CouponUpdate.Omitted CouponUpdate.Omitted.

(** The body [{"title": "", "featured": false}] of a [PUT]. *)
Definition falsy_body : CouponUpdate.body :=
  CouponUpdate.mk_body CouponUpdate.Omitted CouponUpdate.Omitted
    (CouponUpdate.Given "") CouponUpdate.Omitted CouponUpdate.Omitted
    CouponUpdate.Omitted CouponUpdate.Omitted (CouponUpdate.Given false).

(** ** All routes that touch the state *)

(** One call of a route, with the values it draws. *)
Inductive request :=
  | Login (credentials : AdminLogin.t) (entropy : Base64.bytes) (now : datetime)
  | Admin (r : admin_request)
  | ListCoupons (category search : option string) (featured : option bool)
  | GetCoupon (coupon_id : string).

(** The state a request leaves, whether it returned or raised. *)
Definition step (cfg : settings) (lower : string → string) (r : request)
    (st : state) : state :=
  match r with
  | Login credentials entropy now => (admin_login cfg credentials entropy now st).2
  | Admin r => (run r st).2
  | ListCoupons category search featured =>
      (get_coupons lower category search featured st).2
  | GetCoupon coupon_id => (get_coupon coupon_id st).2
  end.

Fixpoint steps (cfg : settings) (lower : string → string) (rs : list request)
    (st : state) : state :=
  match rs with
  | [] => st
  | r :: rs' => steps cfg lower rs' (step cfg lower r st)
  end.

(** ** Invariants of the collection *)

(** The ids of the stored documents, in store order. *)
Definition ids (st : state) : list (option value) :=
  (λ d : dict, d !! "id") <$> coupons st.

(** No two stored documents have the same id. *)
Definition unique_ids (st : state) : Prop := NoDup (ids st).

(** The id a create request draws is not the id of a stored document. *)
Definition draws_fresh_id (r : admin_request) (st : state) : Prop :=
  match r with
  | Create _ _ uuid _ => ¬ exists_id uuid st
  | _ => True
  end.

(** The time a create request draws is a [datetime]. *)
Definition draws_valid_time (r : admin_request) : Prop :=
  match r with
  | Create _ _ _ now => Datetime.valid now = true
  | _ => True
  end.

(** The shape of the documents [create_coupon] writes: the fields of the
    model [Coupon] with their types, and the creation time as ISO text. *)
Definition coupon_doc (d : dict) : Prop :=
  (∃ i, d !! "id" = Some (VStr i)) ∧
  Forall (λ k, ∃ s, d !! k = Some (VStr s))
    ["store_name"; "title"; "code"; "description"; "category"; "expiry_date"] ∧
  (d !! "logo_url" = Some VNone ∨ ∃ s, d !! "logo_url" = Some (VStr s)) ∧
  (∃ b, d !! "featured" = Some (VBool b)) ∧
  (∃ t, Datetime.valid t = true ∧ d !! "created_at" = Some (VStr (isoformat t))).

(** The header ["bearer <token>"], with the scheme in lower case. *)
Definition lowercase_bearer : option string := Some ("bearer " +:+ sample_token).

(** A collection holding a thousand copies of the stored [nike] document. *)
Definition crowded : state :=
  mk_state (admin_sessions logged_in)
    (replicate 1000 (default ∅ (head (coupons one_coupon)))) 1000.

(** * Properties of the library models *)

Module PyStrFacts.
Import PyStr.

Lemma prefix_empty s : String.prefix "" s = true.
Proof. by destruct s. Qed.

Lemma prefix_append p s : String.prefix p (p +:+ s) = true.
Proof.
  induction p as [|c p IH]; simpl; [apply prefix_empty|].
  destruct (ascii_dec c c); [apply IH | done].
Qed.

Lemma prefix_split p s : String.prefix p s = true → ∃ r, s = p +:+ r.
Proof.
  revert s; induction p as [|c p IH]; intros s H.
  - by exists s.
  - destruct s as [|x s]; simpl in H; [done|].
    destruct (ascii_dec c x) as [->|]; [|done].
    destruct (IH _ H) as [r ->]. by exists r.
Qed.

Lemma all_chars_append p s r :
  all_chars p (s +:+ r) = all_chars p s && all_chars p r.
Proof.
  induction s as [|c s IH]; simpl; [done|].
  by rewrite IH, andb_assoc.
Qed.

(** A string of characters satisfying [p] has no occurrence of a string
    that has a character violating [p]. *)
Lemma contains_all_chars p old s :
  all_chars p s = true → all_chars p old = false → contains old s = false.
Proof.
  intros Hs Hold. induction s as [|c s IH].
  - cbn [contains]. destruct (String.prefix old "") eqn:E; [|done].
    destruct (prefix_split _ _ E) as [r Hr].
    destruct old; [discriminate Hold | discriminate Hr].
  - cbn [contains]. cbn in Hs. apply andb_true_iff in Hs as [Hc Hs].
    rewrite (IH Hs), orb_false_r.
    destruct (String.prefix old (String c s)) eqn:E; [|done].
    destruct (prefix_split _ _ E) as [r Hr].
    assert (all_chars p (old +:+ r) = true) as Hall
      by (rewrite <- Hr; simpl; by rewrite Hc, Hs).
    rewrite all_chars_append, Hold in Hall. done.
Qed.

(** Nothing is replaced in a string without an occurrence of [old]. *)
Lemma replace_from_absent old new s :
  contains old s = false → replace_from old new 0 s = s.
Proof.
  induction s as [|c s IH]; [done|].
  cbn [contains replace_from]. intros H.
  apply orb_false_iff in H as [-> H]. by rewrite (IH H).
Qed.

Lemma replace_from_skip old new r p :
  replace_from old new (String.length p) (p +:+ r) = replace_from old new 0 r.
Proof. induction p as [|c p IH]; [done|]. simpl. apply IH. Qed.

(** Stripping the scheme: [("Bearer " + t).replace("Bearer ", "")] is [t]
    when [t] has no occurrence of the scheme. *)
Lemma replace_scheme t :
  contains "Bearer " t = false → replace ("Bearer " +:+ t) "Bearer " "" = t.
Proof.
  intros H. unfold replace.
  change ("Bearer " +:+ t) with (String "B" ("earer " +:+ t)).
  cbn [replace_from].
  change (String "B" ("earer " +:+ t)) with ("Bearer " +:+ t).
  rewrite prefix_append.
  change (String.length "Bearer " - 1) with (String.length "earer ").
  rewrite replace_from_skip. cbn. by apply replace_from_absent.
Qed.

Lemma rstrip_cons_ne c x s :
  x ≠ c → rstrip c (String x s) = String x (rstrip c s).
Proof.
  intros Hne. cbn. destruct (rstrip c s); [|done].
  destruct (Ascii.eqb_spec x c); [done|done].
Qed.

Lemma startswith_split s p : startswith s p = true ↔ ∃ r, s = p +:+ r.
Proof.
  split; [apply prefix_split|]. intros [r ->]. apply prefix_append.
Qed.

End PyStrFacts.

Module Base64Facts.
Import PyStr PyStrFacts Base64.

(** A property of the 6-bit digits is checked on the 64 of them. *)
Lemma below_64 (f : N → bool) :
  forallb f (N.of_nat <$> seq 0 64) = true → ∀ i, (i < 64)%N → f i = true.
Proof.
  intros H i Hi. rewrite forallb_forall in H. apply H.
  apply in_map_iff. exists (N.to_nat i). split; [lia|].
  apply in_seq. lia.
Qed.

Lemma list_ind3 {A} (P : list A → Prop) :
  P [] → (∀ a, P [a]) → (∀ a b, P [a; b]) →
  (∀ a b c l, P l → P (a :: b :: c :: l)) → ∀ l, P l.
Proof.
  intros H0 H1 H2 H3 l.
  assert (∀ n l, (List.length l ≤ n)%nat → P l) as Hn; [|by apply (Hn (List.length l))].
  clear l. induction n as [|n IH]; intros l Hl.
  - destruct l; [done|simpl in Hl; lia].
  - destruct l as [|a [|b [|c l]]]; [done..|].
    apply H3, IH. simpl in Hl. lia.
Qed.

Local Ltac euclid := zify; Z.to_euclidean_division_equations; lia.

Lemma sextet1 x : (x < 256 → x / 4 < 64)%N.
Proof. intros. euclid. Qed.
Lemma sextet2 x y : (y < 256 → (x mod 4) * 16 + y / 16 < 64)%N.
Proof. intros. euclid. Qed.
Lemma sextet3 y z : (z < 256 → (y mod 16) * 4 + z / 64 < 64)%N.
Proof. intros. euclid. Qed.
Lemma sextet4 z : (z mod 64 < 64)%N.
Proof. intros. euclid. Qed.

Lemma byte_of_to_N a : byte_of_N (Byte.to_N a) = a.
Proof. unfold byte_of_N. by rewrite Byte.of_to_N. Qed.

Lemma to_N_lt a : (Byte.to_N a < 256)%N.
Proof. pose proof (Byte.to_N_bounded a). lia. Qed.

Lemma byte1_sextets a b :
  byte1 (Byte.to_N a / 4) ((Byte.to_N a mod 4) * 16 + Byte.to_N b / 16) = a.
Proof.
  unfold byte1. etransitivity; [|apply (byte_of_to_N a)]. f_equal.
  pose proof (to_N_lt a). pose proof (to_N_lt b). euclid.
Qed.

Lemma byte1_last a :
  byte1 (Byte.to_N a / 4) ((Byte.to_N a mod 4) * 16) = a.
Proof.
  unfold byte1. etransitivity; [|apply (byte_of_to_N a)]. f_equal.
  pose proof (to_N_lt a). euclid.
Qed.

Lemma byte2_sextets a b c :
  byte2 ((Byte.to_N a mod 4) * 16 + Byte.to_N b / 16)
        ((Byte.to_N b mod 16) * 4 + Byte.to_N c / 64) = b.
Proof.
  unfold byte2. etransitivity; [|apply (byte_of_to_N b)]. f_equal.
  pose proof (to_N_lt a). pose proof (to_N_lt b). pose proof (to_N_lt c). euclid.
Qed.

Lemma byte2_last a b :
  byte2 ((Byte.to_N a mod 4) * 16 + Byte.to_N b / 16) ((Byte.to_N b mod 16) * 4) = b.
Proof.
  unfold byte2. etransitivity; [|apply (byte_of_to_N b)]. f_equal.
  pose proof (to_N_lt a). pose proof (to_N_lt b). euclid.
Qed.

Lemma byte3_sextets b c :
  byte3 ((Byte.to_N b mod 16) * 4 + Byte.to_N c / 64) (Byte.to_N c mod 64) = c.
Proof.
  unfold byte3. etransitivity; [|apply (byte_of_to_N c)]. f_equal.
  pose proof (to_N_lt b). pose proof (to_N_lt c). euclid.
Qed.

Definition good_alphabet (alphabet : string) : Prop :=
  ∀ i, (i < 64)%N →
    digit alphabet i ≠ pad ∧ index alphabet (digit alphabet i) = i.

Lemma good_alphabet_check alphabet :
  forallb (λ i, negb (Ascii.eqb (digit alphabet i) pad)
                && (index alphabet (digit alphabet i) =? i)%N)
    (N.of_nat <$> seq 0 64) = true →
  good_alphabet alphabet.
Proof.
  intros H i Hi. apply (below_64 _ H) in Hi.
  apply andb_true_iff in Hi as [H1 H2]. split.
  - intros E. rewrite E in H1. by rewrite Ascii.eqb_refl in H1.
  - by apply N.eqb_eq.
Qed.

Lemma std_alphabet_good : good_alphabet std_alphabet.
Proof. apply good_alphabet_check. vm_compute. reflexivity. Qed.

Lemma url_alphabet_good : good_alphabet url_alphabet.
Proof. apply good_alphabet_check. vm_compute. reflexivity. Qed.

Lemma url_digit_safe i : (i < 64)%N → urlsafe_char (digit url_alphabet i) = true.
Proof.
  apply (below_64 (λ i, urlsafe_char (digit url_alphabet i))).
  vm_compute. reflexivity.
Qed.

Section Alphabet.
Variable alphabet : string.
Hypothesis good : good_alphabet alphabet.

Lemma digit_not_pad i : (i < 64)%N → Ascii.eqb (digit alphabet i) pad = false.
Proof. intros Hi. apply Ascii.eqb_neq. by apply good. Qed.

Lemma index_digit i : (i < 64)%N → index alphabet (digit alphabet i) = i.
Proof. intros Hi. by apply good. Qed.

Lemma d1_lt a : (Byte.to_N a / 4 < 64)%N.
Proof. apply sextet1, to_N_lt. Qed.
Lemma d2_lt a b : ((Byte.to_N a mod 4) * 16 + Byte.to_N b / 16 < 64)%N.
Proof. apply sextet2, to_N_lt. Qed.
Lemma d2_last_lt a : ((Byte.to_N a mod 4) * 16 < 64)%N.
Proof. euclid. Qed.
Lemma d3_lt b c : ((Byte.to_N b mod 16) * 4 + Byte.to_N c / 64 < 64)%N.
Proof. apply sextet3, to_N_lt. Qed.
Lemma d3_last_lt b : ((Byte.to_N b mod 16) * 4 < 64)%N.
Proof. euclid. Qed.

Local Ltac digits :=
  rewrite ?digit_not_pad, ?index_digit
    by first [apply d1_lt | apply d2_lt | apply d2_last_lt | apply d3_lt
             | apply d3_last_lt | apply sextet4].

(** Decoding a padded encoding gives the bytes back. *)
Lemma decode_encode bs : decode alphabet (encode alphabet bs) = bs.
Proof.
  induction bs as [|a|a b|a b c bs IH] using list_ind3; [done|..].
  - cbn [encode decode]. rewrite Ascii.eqb_refl. digits. by rewrite byte1_last.
  - cbn [encode decode]. rewrite Ascii.eqb_refl. digits.
    by rewrite byte1_sextets, byte2_last.
  - cbn [encode]. cbn [decode]. digits.
    by rewrite byte1_sextets, byte2_sextets, byte3_sextets, IH.
Qed.

Lemma rstrip_digit i s :
  (i < 64)%N →
  rstrip pad (String (digit alphabet i) s) = String (digit alphabet i) (rstrip pad s).
Proof. intros Hi. apply rstrip_cons_ne. by apply good. Qed.

(** So does decoding an encoding whose padding was stripped. *)
Lemma decode_rstrip_encode bs :
  decode alphabet (rstrip pad (encode alphabet bs)) = bs.
Proof.
  induction bs as [|a|a b|a b c bs IH] using list_ind3; [done|..].
  - cbn [encode]. rewrite !rstrip_digit by first [apply d1_lt | apply d2_last_lt].
    change (rstrip pad (String pad (String pad ""))) with "".
    cbn [decode]. digits. by rewrite byte1_last.
  - cbn [encode].
    rewrite !rstrip_digit by first [apply d1_lt | apply d2_lt | apply d3_last_lt].
    change (rstrip pad (String pad "")) with "".
    cbn [decode]. digits. by rewrite byte1_sextets, byte2_last.
  - cbn [encode].
    rewrite !rstrip_digit
      by first [apply d1_lt | apply d2_lt | apply d3_lt | apply sextet4].
    cbn [decode]. digits.
    by rewrite byte1_sextets, byte2_sextets, byte3_sextets, IH.
Qed.

End Alphabet.

(** [b64encode] carries the whole content. *)
Lemma b64encode_inj a b : b64encode a = b64encode b → a = b.
Proof.
  intros H. apply (f_equal (decode std_alphabet)) in H.
  unfold b64encode in H.
  by rewrite !(decode_encode _ std_alphabet_good) in H.
Qed.

(** Distinct draws give distinct tokens. *)
Lemma token_urlsafe_inj n a b :
  token_urlsafe n a = token_urlsafe n b → urandom n a = urandom n b.
Proof.
  intros H. apply (f_equal (decode url_alphabet)) in H.
  unfold token_urlsafe, urlsafe_b64encode in H.
  by rewrite !(decode_rstrip_encode _ url_alphabet_good) in H.
Qed.

Lemma urandom_all n entropy : List.length entropy = n → urandom n entropy = entropy.
Proof. intros <-. apply firstn_all. Qed.

Local Ltac sextets :=
  first [apply d1_lt | apply d2_lt | apply d2_last_lt | apply d3_lt
        | apply d3_last_lt | apply sextet4].

(** A token is made of URL-safe characters only. *)
Lemma token_urlsafe_chars n entropy :
  all_chars urlsafe_char (token_urlsafe n entropy) = true.
Proof.
  unfold token_urlsafe, urlsafe_b64encode. generalize (urandom n entropy) as bs.
  intros bs. induction bs as [|a|a b|a b c bs IH] using list_ind3; [done|..];
    cbn [encode]; rewrite !(rstrip_digit _ url_alphabet_good) by sextets.
  - change (rstrip pad (String pad (String pad ""))) with "".
    cbn [all_chars]. by rewrite !url_digit_safe by sextets.
  - change (rstrip pad (String pad "")) with "".
    cbn [all_chars]. by rewrite !url_digit_safe by sextets.
  - cbn [all_chars]. by rewrite !url_digit_safe, IH by sextets.
Qed.

(** In particular a token has no occurrence of the scheme ["Bearer "]. *)
Lemma token_urlsafe_no_scheme n entropy :
  contains "Bearer " (token_urlsafe n entropy) = false.
Proof.
  apply (contains_all_chars urlsafe_char); [apply token_urlsafe_chars|done].
Qed.

(** 32 bytes, that is 256 random bits, make a token of 43 characters. *)
Lemma token_urlsafe_32_length entropy :
  List.length entropy = 32 → String.length (token_urlsafe 32 entropy) = 43.
Proof.
  intros Hlen. unfold token_urlsafe, urlsafe_b64encode.
  rewrite (urandom_all _ _ Hlen).
  do 32 (destruct entropy as [|? entropy]; [discriminate Hlen|]).
  destruct entropy; [|discriminate Hlen].
  cbn [encode]. rewrite !(rstrip_digit _ url_alphabet_good) by sextets.
  reflexivity.
Qed.

End Base64Facts.

Module DatetimeFacts.
Import Datetime.

Lemma digit_val_char n : (n < 10)%N → digit_val (digit_char n) = Some n.
Proof.
  intros Hn. unfold digit_val, digit_char.
  rewrite N_ascii_embedding by lia.
  replace ((48 <=? 48 + n) && (48 + n <=? 57))%N with true.
  - f_equal. lia.
  - symmetry. apply andb_true_iff. split; apply N.leb_le; lia.
Qed.

Lemma append_cons c s r : String c s +:+ r = String c (s +:+ r).
Proof. reflexivity. Qed.

(** Reading [k] digits of a zero-padded number gives the number back. *)
Lemma read_zero_padded k n acc rest :
  read_digits k acc (zero_padded k n +:+ rest)
  = Some ((acc * 10 ^ N.of_nat k + n mod 10 ^ N.of_nat k)%N, rest).
Proof.
  revert acc. induction k as [|k IH]; intros acc.
  - simpl. rewrite N.mod_1_r. do 2 f_equal. lia.
  - cbn [zero_padded]. rewrite append_cons. cbn [read_digits].
    rewrite digit_val_char by (apply N.mod_lt; lia).
    rewrite IH. do 2 f_equal.
    rewrite Nat2N.inj_succ, N.pow_succ_r'.
    rewrite (N.mul_comm 10 (10 ^ N.of_nat k)).
    rewrite N.Div0.mod_mul_r. lia.
Qed.

Lemma read_padded k n rest :
  (n < 10 ^ N.of_nat k)%N →
  read_digits k 0 (zero_padded k n +:+ rest) = Some (n, rest).
Proof.
  intros Hn. rewrite read_zero_padded, N.mod_small by done. do 2 f_equal.
Qed.

Lemma expect_head c rest : expect c (String c "" +:+ rest) = Some rest.
Proof. simpl. by rewrite Ascii.eqb_refl. Qed.

Lemma append_empty_r s : s +:+ "" = s.
Proof. induction s as [|c s IH]; [done|]. by rewrite append_cons, IH. Qed.

Lemma read_offset_format tz :
  valid_tz tz = true → read_offset (format_offset tz) = Some tz.
Proof.
  destruct tz as [off|]; [|done]. cbn [valid_tz format_offset].
  intros Hv. apply andb_true_iff in Hv as [Hlo Hhi].
  apply Z.ltb_lt in Hlo, Hhi.
  set (a := Z.to_N (Z.abs off)).
  assert (a < 1440)%N as Ha by (subst a; lia).
  assert (a / 60 < 100)%N as Hq by (zify; Z.to_euclidean_division_equations; lia).
  assert (a mod 60 < 100)%N as Hr by (zify; Z.to_euclidean_division_equations; lia).
  assert (Z.of_N (a / 60 * 60 + a mod 60) = Z.abs off) as Hoff.
  { subst a. zify. Z.to_euclidean_division_equations. lia. }
  rewrite <- (append_empty_r (zero_padded 2 (a mod 60))).
  destruct (off <? 0)%Z eqn:Hs; cbn [read_offset Ascii.eqb Bool.eqb orb andb];
    rewrite (read_padded 2) by done; cbn [mbind option_bind];
    rewrite expect_head; cbn [mbind option_bind];
    rewrite (read_padded 2) by done; cbn [mbind option_bind];
    rewrite Hoff; do 2 f_equal.
  - apply Z.ltb_lt in Hs. lia.
  - apply Z.ltb_ge in Hs. lia.
Qed.

Lemma read_fraction_offset tz :
  read_fraction (format_offset tz) = Some (0%N, format_offset tz).
Proof. destruct tz as [off|]; [|done]. cbn. by destruct (off <? 0)%Z. Qed.

(** A timestamp written by [isoformat] is read back by [fromisoformat]
    unchanged: every field down to the microsecond, and the UTC offset. *)
Lemma fromisoformat_isoformat d :
  valid d = true → fromisoformat (isoformat d) = Some d.
Proof.
  intros Hv. pose proof Hv as Hvalid. unfold valid in Hv.
  repeat (apply andb_true_iff in Hv as [Hv ?]).
  repeat match goal with
         | H : (_ <=? _)%N = true |- _ => apply N.leb_le in H
         | H : (_ <? _)%N = true |- _ => apply N.ltb_lt in H
         end.
  assert (day d ≤ 31)%N as Hday.
  { etransitivity; [eassumption|]. unfold days_in_month.
    repeat case_match; lia. }
  unfold fromisoformat, isoformat.
  rewrite (read_padded 4) by (simpl; lia). cbn [mbind option_bind].
  rewrite expect_head. cbn [mbind option_bind].
  rewrite (read_padded 2) by (simpl; lia). cbn [mbind option_bind].
  rewrite expect_head. cbn [mbind option_bind].
  rewrite (read_padded 2) by (simpl; lia). cbn [mbind option_bind].
  rewrite expect_head. cbn [mbind option_bind].
  rewrite (read_padded 2) by (simpl; lia). cbn [mbind option_bind].
  rewrite expect_head. cbn [mbind option_bind].
  rewrite (read_padded 2) by (simpl; lia). cbn [mbind option_bind].
  rewrite expect_head. cbn [mbind option_bind].
  rewrite (read_padded 2) by (simpl; lia). cbn [mbind option_bind].
  assert (read_fraction
            ((if (microsecond d =? 0)%N then ""
              else "." +:+ zero_padded 6 (microsecond d)) +:+ format_offset (tzinfo d))
          = Some (microsecond d, format_offset (tzinfo d))) as ->.
  { destruct (microsecond d =? 0)%N eqn:E.
    - apply N.eqb_eq in E. rewrite E. apply read_fraction_offset.
    - rewrite !append_cons. cbn [read_fraction].
      apply read_padded. simpl. lia. }
  cbn [mbind option_bind].
  rewrite read_offset_format by done. cbn [mbind option_bind].
  destruct d. cbn in *. by rewrite Hvalid.
Qed.

End DatetimeFacts.

(** * The handlers *)

Import PyStr PyStrFacts Base64 Base64Facts DatetimeFacts.

(** ** Store operations *)

Lemma matches_id coupon_id d :
  matches {["id" := VStr coupon_id]} d ↔ d !! "id" = Some (VStr coupon_id).
Proof. unfold matches. by rewrite map_Forall_singleton. Qed.

Lemma find_one_id coupon_id st :
  find_one {["id" := VStr coupon_id]} st =
  (Return (head (filter (λ d : dict, d !! "id" = Some (VStr coupon_id)) (coupons st))), st).
Proof.
  unfold find_one. do 3 f_equal. apply list_filter_iff. intros d. apply matches_id.
Qed.

Lemma head_filter_Some {A} (P : A → Prop) `{!∀ x, Decision (P x)} (l : list A) d :
  head (filter P l) = Some d ↔
  ∃ pre post, l = (pre ++ d :: post)%list ∧ P d ∧ Forall (λ x, ¬ P x) pre.
Proof.
  induction l as [|x l IH].
  - split; [done|]. intros (pre & post & E & _). by destruct pre.
  - rewrite filter_cons. destruct (decide (P x)) as [Hx|Hx].
    + split.
      * intros [= ->]. exists [], l. by repeat split.
      * intros (pre & post & E & Hd & Hpre). destruct pre as [|y pre].
        -- by injection E as -> _.
        -- injection E as -> _. by apply Forall_cons_1 in Hpre as [? _].
    + rewrite IH. split.
      * intros (pre & post & -> & Hd & Hpre). exists (x :: pre), post.
        repeat split; [done|]. by constructor.
      * intros (pre & post & E & Hd & Hpre). destruct pre as [|y pre].
        -- injection E as -> _. done.
        -- injection E as -> ->. apply Forall_cons_1 in Hpre as [_ Hpre].
           by exists pre, post.
Qed.

Lemma head_filter_None {A} (P : A → Prop) `{!∀ x, Decision (P x)} (l : list A) :
  head (filter P l) = None ↔ Forall (λ x, ¬ P x) l.
Proof.
  induction l as [|x l IH]; [by split; [constructor|]|].
  rewrite filter_cons. destruct (decide (P x)) as [Hx|Hx].
  - split; [done|]. intros Hl. by apply Forall_cons_1 in Hl as [? _].
  - rewrite IH. split; [by constructor|]. intros Hl. by apply Forall_cons_1 in Hl as [_ ?].
Qed.

Lemma head_filter_Exists {A} (P : A → Prop) `{!∀ x, Decision (P x)} (l : list A) :
  Exists P l → ∃ d, head (filter P l) = Some d.
Proof.
  intros HE. destruct (head (filter P l)) as [d|] eqn:E; [by exists d|].
  apply head_filter_None in E. apply Exists_exists in HE as (x & Hx & HP).
  rewrite Forall_forall in E. by destruct (E x Hx).
Qed.

Lemma missing_found d coupon_id :
  d !! "id" = Some (VStr coupon_id) → missing (Some d) = false.
Proof.
  intros H. unfold missing. apply bool_decide_eq_false. intros ->.
  by rewrite lookup_empty in H.
Qed.

(** [$set] on the first document with the id; the others stay. *)
Lemma set_first_id coupon_id fields pre d post :
  d !! "id" = Some (VStr coupon_id) →
  Forall (λ x : dict, ¬ x !! "id" = Some (VStr coupon_id)) pre →
  set_first {["id" := VStr coupon_id]} fields (pre ++ d :: post)%list
  = (pre ++ (fields ∪ d) :: post)%list.
Proof.
  intros Hd Hpre. induction pre as [|x pre IH]; cbn [set_first app].
  - rewrite decide_True; [done|by apply matches_id].
  - apply Forall_cons_1 in Hpre as [Hx Hpre].
    rewrite decide_False; [|by rewrite matches_id]. by rewrite IH.
Qed.

Lemma set_first_absent coupon_id fields l :
  Forall (λ x : dict, ¬ x !! "id" = Some (VStr coupon_id)) l →
  set_first {["id" := VStr coupon_id]} fields l = l.
Proof.
  induction 1 as [|x l Hx Hl IH]; [done|]. cbn [set_first].
  rewrite decide_False; [|by rewrite matches_id]. by rewrite IH.
Qed.

(** ** Authorization *)

Lemma verify_admin_token_state authorization st :
  (verify_admin_token authorization st).2 = st.
Proof.
  unfold verify_admin_token. destruct authorization as [a|]; [|done].
  destruct (negb (truthy a) || negb (startswith a "Bearer ")); [done|].
  by destruct (admin_sessions st !! replace a "Bearer " "").
Qed.

Lemma verify_admin_token_raises authorization st e :
  (verify_admin_token authorization st).1 = Raise e →
  e = HTTPException 401 "Not authenticated" ∨
  e = HTTPException 401 "Invalid or expired token".
Proof.
  unfold verify_admin_token. destruct authorization as [a|].
  - destruct (negb (truthy a) || negb (startswith a "Bearer ")).
    + intros [= <-]. by left.
    + destruct (admin_sessions st !! replace a "Bearer " ""); [done|].
      intros [= <-]. by right.
  - intros [= <-]. by left.
Qed.

Lemma verify_admin_token_cases authorization st :
  (∃ token, verify_admin_token authorization st = (Return token, st)) ∨
  (∃ e, verify_admin_token authorization st = (Raise e, st)).
Proof.
  pose proof (verify_admin_token_state authorization st) as Hst.
  destruct (verify_admin_token authorization st) as [[t|e] st'];
    cbn in Hst; subst st'; eauto.
Qed.

(** A header without the scheme is refused whatever follows. *)
Lemma verify_admin_token_scheme a st :
  startswith a "Bearer " = false →
  verify_admin_token (Some a) st = (Raise (HTTPException 401 "Not authenticated"), st).
Proof.
  intros H. unfold verify_admin_token. by rewrite H, orb_true_r.
Qed.

Lemma verify_admin_token_missing st :
  verify_admin_token None st = (Raise (HTTPException 401 "Not authenticated"), st).
Proof. done. Qed.

(** The scheme followed by a token in which the scheme does not occur. *)
Lemma verify_admin_token_bearer t st :
  contains "Bearer " t = false →
  verify_admin_token (Some ("Bearer " +:+ t)) st =
  match admin_sessions st !! t with
  | Some _ => (Return t, st)
  | None => (Raise (HTTPException 401 "Invalid or expired token"), st)
  end.
Proof.
  intros H. unfold verify_admin_token.
  replace (negb (truthy ("Bearer " +:+ t)) || negb (startswith ("Bearer " +:+ t) "Bearer "))
    with false.
  - by rewrite replace_scheme.
  - unfold startswith. by rewrite prefix_append.
Qed.

(** Evaluation of both sides of a closed equation. *)
Ltac vm_refl :=
  lazymatch goal with
  | |- ?lhs = _ => vm_cast_no_check (@eq_refl _ lhs)
  end.

Lemma bind_return {A B} (m : handler A) (f : A → handler B) st a st' :
  m st = (Return a, st') → (m ≫= f) st = f a st'.
Proof. intros H. unfold mbind, handler_bind. by rewrite H. Qed.

Lemma bind_raise {A B} (m : handler A) (f : A → handler B) st e st' :
  m st = (Raise e, st') → (m ≫= f) st = (Raise e, st').
Proof. intros H. unfold mbind, handler_bind. by rewrite H. Qed.

(** C1, at the input where the code departs from it.  The header
    ["Bearer Bearer <token>"] has the scheme prefix and its remainder
    ["Bearer <token>"] is not a registered session, so authorization should
    fail with "Invalid or expired token"; [replace] removes both occurrences
    of the scheme and the request is accepted as [<token>]. *)
Theorem verify_admin_token_nested_scheme :
  admin_sessions logged_in !! ("Bearer " +:+ sample_token) = None ∧
  verify_admin_token (Some ("Bearer " +:+ "Bearer " +:+ sample_token)) logged_in
  = (Return sample_token, logged_in).
Proof. split; vm_refl. Qed.

(** C4: login succeeds exactly on the configured pair of credentials,
    compared as strings, and otherwise raises the one error 401 "Invalid
    credentials" and changes nothing.  On success the token is
    [token_urlsafe(32)]: URL-safe characters only, 43 of them for the 32
    random bytes, and registered as a session.  Two logins whose 32-byte
    draws differ give two distinct tokens, and both are accepted by
    [verify_admin_token] afterwards.  (That two draws differ is what the
    randomness of [os.urandom] provides; the draws are inputs here.) *)
Theorem admin_login_contract (cfg : settings) (credentials : AdminLogin.t)
    (entropy1 entropy2 : bytes) (now1 now2 : datetime) (st : state)
    (Hdraw1 : List.length entropy1 = 32) (Hdraw2 : List.length entropy2 = 32) :
  let ok := AdminLogin.username credentials = ADMIN_USERNAME cfg ∧
            AdminLogin.password credentials = ADMIN_PASSWORD cfg in
  (¬ ok →
   admin_login cfg credentials entropy1 now1 st
   = (Raise (HTTPException 401 "Invalid credentials"), st)) ∧
  (ok →
   ∃ t1 st1,
     admin_login cfg credentials entropy1 now1 st
     = (Return (AdminLoginResponse.mk t1 "Login successful"), st1) ∧
     t1 = token_urlsafe 32 entropy1 ∧
     all_chars urlsafe_char t1 = true ∧ String.length t1 = 43 ∧
     is_Some (admin_sessions st1 !! t1) ∧
     coupons st1 = coupons st ∧ writes st1 = writes st ∧
     verify_admin_token (Some ("Bearer " +:+ t1)) st1 = (Return t1, st1) ∧
     (entropy1 ≠ entropy2 →
      ∃ t2 st2,
        admin_login cfg credentials entropy2 now2 st1
        = (Return (AdminLoginResponse.mk t2 "Login successful"), st2) ∧
        t1 ≠ t2 ∧
        verify_admin_token (Some ("Bearer " +:+ t1)) st2 = (Return t1, st2) ∧
        verify_admin_token (Some ("Bearer " +:+ t2)) st2 = (Return t2, st2))).
Proof.
  intros ok. split.
  - intros Hno. unfold admin_login.
    rewrite (proj2 (andb_false_iff _ _)); [done|].
    rewrite !bool_decide_eq_false. apply not_and_l. exact Hno.
  - intros [Hu Hp]. unfold admin_login.
    rewrite !bool_decide_eq_true_2 by done. cbn [andb].
    eexists _, _. split; [reflexivity|]. cbn [admin_sessions coupons writes].
    repeat split.
    + apply token_urlsafe_chars.
    + by apply token_urlsafe_32_length.
    + rewrite lookup_insert_eq. eauto.
    + rewrite verify_admin_token_bearer by apply token_urlsafe_no_scheme.
      cbn [admin_sessions]. by rewrite lookup_insert_eq.
    + intros Hne. eexists _, _. split; [reflexivity|].
      assert (token_urlsafe 32 entropy1 ≠ token_urlsafe 32 entropy2) as Hts.
      { intros E. apply token_urlsafe_inj in E.
        rewrite !urandom_all in E by done. done. }
      repeat split; [done|..];
        rewrite verify_admin_token_bearer by apply token_urlsafe_no_scheme;
        cbn [admin_sessions].
      * by rewrite lookup_insert_ne, lookup_insert_eq.
      * by rewrite lookup_insert_eq.
Qed.

Lemma admin_login_contract_witness :
  (AdminLogin.username admin = ADMIN_USERNAME default_settings ∧
   AdminLogin.password admin = ADMIN_PASSWORD default_settings) ∧
  sample_entropy ≠ other_entropy ∧
  ∃ t1 t2 st2,
    t1 ≠ t2 ∧
    verify_admin_token (Some ("Bearer " +:+ t1)) st2 = (Return t1, st2) ∧
    verify_admin_token (Some ("Bearer " +:+ t2)) st2 = (Return t2, st2).
Proof.
  split; [by split|]. split; [discriminate|].
  destruct (admin_login_contract default_settings admin sample_entropy
              other_entropy sample_now sample_now fresh_state eq_refl eq_refl)
    as [_ Hok].
  destruct Hok as (t1 & st1 & _ & _ & _ & _ & _ & _ & _ & _ & Hsecond);
    [by split|].
  destruct Hsecond as (t2 & st2 & _ & Hne & H1 & H2); [discriminate|].
  by exists t1, t2, st2.
Defined.

(** X18: when [verify_admin_token] raises on the header of a create, update,
    delete or upload request, the request ends with that 401 error and the
    state (the collection, the count of write commands, the sessions) is as
    before. *)
Theorem unauthorized_request_changes_nothing (r : admin_request) (st : state)
    (e : exn) :
  (verify_admin_token (authorization_of r) st).1 = Raise e →
  run r st = (Some e, st) ∧ ∃ detail, e = HTTPException 401 detail.
Proof.
  intros Hfail.
  assert (verify_admin_token (authorization_of r) st = (Raise e, st)) as Hv.
  { pose proof (verify_admin_token_state (authorization_of r) st).
    destruct (verify_admin_token (authorization_of r) st); cbn in *. congruence. }
  split.
  - destruct r; cbn [run authorization_of] in *;
      unfold create_coupon, update_coupon, delete_coupon, upload_logo;
      by rewrite (bind_raise _ _ _ _ _ Hv).
  - destruct (verify_admin_token_raises _ _ _ Hfail) as [-> | ->]; eauto.
Qed.

Lemma unauthorized_request_changes_nothing_witness :
  run (Delete "c-1" (Some ("Token " +:+ sample_token))) one_coupon
  = (Some (HTTPException 401 "Not authenticated"), one_coupon).
Proof.
  apply (unauthorized_request_changes_nothing
           (Delete "c-1" (Some ("Token " +:+ sample_token))) one_coupon).
  vm_refl.
Defined.

(** C5, at the input where the code departs from it.  The token of the
    header ["Bearer Bearer <token>"], what follows the scheme, is
    ["Bearer <token>"], which is no session: the delete should end with
    401 and leave the collection alone.  [verify_admin_token] removes both
    occurrences of the scheme, accepts the request, and the coupon is
    deleted. *)
Theorem delete_coupon_nested_scheme :
  admin_sessions one_coupon !! ("Bearer " +:+ sample_token) = None ∧
  exists_id "c-1" one_coupon ∧
  run (Delete "c-1" nested_bearer) one_coupon
  = (None, mk_state (admin_sessions one_coupon) [] (S (writes one_coupon))).
Proof.
  split; [vm_refl|]. split; [|vm_refl].
  apply (bool_decide_unpack _). vm_compute. exact I.
Qed.

(** C9: for an authorized upload, the handler raises 400 "File must be an
    image" exactly when the declared content type is absent or does not
    start with [image/]; otherwise it returns the data URL
    [data:<content type>;base64,<base64 of the content>].  In both cases
    the state is unchanged, and the encoding determines the whole content. *)
Theorem upload_logo_data_url (file : UploadFile.t) (authorization : option string)
    (st : state) :
  authorized authorization st →
  upload_logo file authorization st =
    match UploadFile.content_type file with
    | Some ct =>
        if startswith ct "image/"
        then (Return {["url" := VStr ("data:" +:+ ct +:+ ";base64," +:+
                                      b64encode (UploadFile.contents file))]}, st)
        else (Raise (HTTPException 400 "File must be an image"), st)
    | None => (Raise (HTTPException 400 "File must be an image"), st)
    end
  ∧ ∀ other, b64encode other = b64encode (UploadFile.contents file) →
             other = UploadFile.contents file.
Proof.
  intros [token Hv]. split; [|intros other; apply b64encode_inj].
  unfold upload_logo. rewrite (bind_return _ _ _ _ _ Hv).
  destruct (UploadFile.content_type file) as [ct|]; [|done].
  destruct ct as [|c ct]; [done|]. cbn [truthy negb orb].
  by destruct (startswith (String c ct) "image/").
Qed.

Lemma upload_logo_data_url_witness :
  upload_logo png bearer logged_in
  = (Return {["url" := VStr "data:image/png;base64,iVBORw=="]}, logged_in).
Proof.
  apply (upload_logo_data_url png bearer logged_in).
  exists sample_token. vm_refl.
Defined.

(** ** Partial update *)

Lemma update_data_lookup b k :
  update_data (CouponUpdate.validate b) !! k = provided b k.
Proof.
  unfold update_data, provided, CouponUpdate.model_dump.
  rewrite map_lookup_filter, !list_to_map_cons, list_to_map_nil.
  repeat (destruct (decide (k = _)) as [->|];
          [ rewrite ?lookup_insert_ne by done; rewrite lookup_insert_eq;
            destruct b as [m1 m2 m3 m4 m5 m6 m7 m8]; cbn;
            first [ by destruct m1 | by destruct m2 | by destruct m3
                  | by destruct m4 | by destruct m5 | by destruct m6
                  | by destruct m7 | by destruct m8 ]
          | ]).
  by rewrite !lookup_insert_ne, lookup_empty by done.
Qed.

Lemma update_data_id b : update_data (CouponUpdate.validate b) !! "id" = None.
Proof. by rewrite update_data_lookup. Qed.

Lemma update_data_created_at b :
  update_data (CouponUpdate.validate b) !! "created_at" = None.
Proof. by rewrite update_data_lookup. Qed.

Lemma validate_surjective u : ∃ b, CouponUpdate.validate b = u.
Proof.
  destruct u as [o1 o2 o3 o4 o5 o6 o7 o8].
  pose (m := λ A (o : option A),
          match o with Some a => CouponUpdate.Given a | None => CouponUpdate.Omitted end).
  exists (CouponUpdate.mk_body (m _ o1) (m _ o2) (m _ o3) (m _ o4) (m _ o5)
            (m _ o6) (m _ o7) (m _ o8)).
  by destruct o1, o2, o3, o4, o5, o6, o7, o8.
Qed.

Lemma exists_id_split coupon_id st :
  exists_id coupon_id st →
  ∃ pre d post,
    coupons st = (pre ++ d :: post)%list ∧ d !! "id" = Some (VStr coupon_id) ∧
    Forall (λ x : dict, ¬ x !! "id" = Some (VStr coupon_id)) pre.
Proof.
  intros H. destruct (head_filter_Exists _ _ H) as [d Hd].
  apply head_filter_Some in Hd as (pre & post & ? & ? & ?). by exists pre, d, post.
Qed.

Lemma find_one_at coupon_id sessions pre d post w :
  d !! "id" = Some (VStr coupon_id) →
  Forall (λ x : dict, ¬ x !! "id" = Some (VStr coupon_id)) pre →
  find_one {["id" := VStr coupon_id]} (mk_state sessions (pre ++ d :: post) w)
  = (Return (Some d), mk_state sessions (pre ++ d :: post) w).
Proof.
  intros Hd Hpre. rewrite find_one_id. do 2 f_equal. cbn [coupons].
  apply head_filter_Some. by exists pre, post.
Qed.

Lemma find_one_absent coupon_id st :
  ¬ exists_id coupon_id st →
  find_one {["id" := VStr coupon_id]} st = (Return None, st).
Proof.
  intros H. rewrite find_one_id. do 2 f_equal. apply head_filter_None.
  by apply not_Exists_Forall; [intros x; apply _|].
Qed.

(** What [update_coupon] does once authorized, on a collection in which
    [d] is the first document with the id. *)
Lemma update_coupon_found coupon_id b authorization token sessions pre d post w :
  let st := mk_state sessions (pre ++ d :: post) w in
  verify_admin_token authorization st = (Return token, st) →
  d !! "id" = Some (VStr coupon_id) →
  Forall (λ x : dict, ¬ x !! "id" = Some (VStr coupon_id)) pre →
  update_coupon coupon_id (CouponUpdate.validate b) authorization st =
  if decide (update_data (CouponUpdate.validate b) = ∅)
  then (read_created_at d, st)
  else (read_created_at (update_data (CouponUpdate.validate b) ∪ d),
        mk_state sessions (pre ++ (update_data (CouponUpdate.validate b) ∪ d) :: post)
          (S w)).
Proof.
  intros st Hv Hd Hpre. unfold update_coupon.
  rewrite (bind_return _ _ _ _ _ Hv). subst st.
  rewrite (bind_return _ _ _ _ _ (find_one_at _ _ _ _ _ _ Hd Hpre)).
  rewrite (missing_found _ _ Hd).
  destruct (decide (update_data (CouponUpdate.validate b) = ∅)) as [E|E].
  - rewrite bool_decide_eq_true_2 by done.
    unfold mbind at 1, handler_bind at 1. cbn [mret handler_ret].
    by rewrite (bind_return _ _ _ _ _ (find_one_at _ _ _ _ _ _ Hd Hpre)).
  - rewrite bool_decide_eq_false_2 by done.
    unfold mbind at 1, handler_bind at 1. unfold update_one at 1.
    cbn [admin_sessions coupons writes]. rewrite (set_first_id _ _ _ _ _ Hd Hpre).
    assert ((update_data (CouponUpdate.validate b) ∪ d) !! "id" = Some (VStr coupon_id))
      as Hd' by (by rewrite lookup_union_r by apply update_data_id).
    by rewrite (bind_return _ _ _ _ _ (find_one_at _ _ _ _ _ _ Hd' Hpre)).
Qed.

Lemma update_coupon_absent coupon_id u authorization token st :
  verify_admin_token authorization st = (Return token, st) →
  ¬ exists_id coupon_id st →
  update_coupon coupon_id u authorization st
  = (Raise (HTTPException 404 "Coupon not found"), st).
Proof.
  intros Hv Hno. unfold update_coupon.
  rewrite (bind_return _ _ _ _ _ Hv).
  by rewrite (bind_return _ _ _ _ _ (find_one_absent _ _ Hno)).
Qed.

(** C2, the input on which it fails: the body [{"logo_url": null}] gives a
    model whose [logo_url] is [None], as for a body without the member, and
    [None] is filtered out of [update_data].  The stored logo is kept, the
    provided [null] is not applied, and the request is indistinguishable
    from one with the body [{}]. *)
Lemma update_coupon_null_not_applied :
  CouponUpdate.b_logo_url null_logo_body = CouponUpdate.Null ∧
  (λ d : dict, d !! "logo_url") <$>
    coupons (update_coupon "c-1" (CouponUpdate.validate null_logo_body) bearer
               one_coupon).2
  = [Some (VStr "https://cdn.test/nike.png")] ∧
  update_coupon "c-1" (CouponUpdate.validate null_logo_body) bearer one_coupon
  = update_coupon "c-1" (CouponUpdate.validate empty_body) bearer one_coupon.
Proof. split; [done|]. split; vm_refl. Qed.

(** C2 as amended: an authorized update of an existing id applies exactly
    the members of the body that are given with a value that is not [null],
    the empty string and [false] included, to the first document with that
    id, and leaves its other fields and all other documents untouched; a
    member that is left out or given as [null] applies nothing.  When no
    document has the id the update raises 404 "Coupon not found" and the
    state is unchanged. *)
Theorem update_coupon_applies_given_fields (coupon_id : string)
    (b : CouponUpdate.body) (authorization : option string) (st : state) :
  authorized authorization st →
  let after := update_coupon coupon_id (CouponUpdate.validate b) authorization st in
  (¬ exists_id coupon_id st →
   after = (Raise (HTTPException 404 "Coupon not found"), st)) ∧
  (exists_id coupon_id st →
   ∃ pre d post d',
     coupons st = (pre ++ d :: post)%list ∧
     d !! "id" = Some (VStr coupon_id) ∧
     Forall (λ x : dict, ¬ x !! "id" = Some (VStr coupon_id)) pre ∧
     coupons after.2 = (pre ++ d' :: post)%list ∧
     admin_sessions after.2 = admin_sessions st ∧
     after.1 = read_created_at d' ∧
     ∀ k, d' !! k = match provided b k with
                    | Some v => Some v
                    | None => d !! k
                    end).
Proof.
  intros [token Hv] after. split.
  - intros Hno. by apply (update_coupon_absent _ _ _ token).
  - intros Hex. destruct (exists_id_split _ _ Hex) as (pre & d & post & Hc & Hd & Hpre).
    destruct st as [sessions c w]. cbn [coupons] in Hc. subst c.
    pose proof (update_coupon_found coupon_id b authorization token sessions
                  pre d post w Hv Hd Hpre) as Hup.
    fold after in Hup.
    destruct (decide (update_data (CouponUpdate.validate b) = ∅)) as [E|E].
    + exists pre, d, post, d. rewrite Hup. cbn [fst snd coupons admin_sessions].
      split_and!; [done..|]. intros k. rewrite <- update_data_lookup, E. by rewrite lookup_empty.
    + exists pre, d, post, (update_data (CouponUpdate.validate b) ∪ d).
      rewrite Hup. cbn [fst snd coupons admin_sessions].
      split_and!; [done..|].
      intros k. rewrite <- update_data_lookup, lookup_union.
      by destruct (update_data (CouponUpdate.validate b) !! k), (d !! k).
Qed.

Lemma sample_authorized : authorized bearer one_coupon.
Proof. exists sample_token. vm_refl. Qed.

Lemma sample_exists : exists_id "c-1" one_coupon.
Proof. apply (bool_decide_unpack _). vm_compute. exact I. Qed.

Lemma update_coupon_applies_given_fields_witness :
  authorized bearer one_coupon ∧ exists_id "c-1" one_coupon ∧
  ∃ pre d post d',
    coupons one_coupon = (pre ++ d :: post)%list ∧
    d !! "id" = Some (VStr "c-1") ∧
    coupons (update_coupon "c-1" (CouponUpdate.validate falsy_body) bearer
               one_coupon).2 = (pre ++ d' :: post)%list ∧
    d' !! "title" = Some (VStr "") ∧
    d' !! "featured" = Some (VBool false) ∧
    d' !! "store_name" = d !! "store_name".
Proof.
  split; [exact sample_authorized|]. split; [exact sample_exists|].
  destruct (update_coupon_applies_given_fields "c-1" falsy_body bearer one_coupon
              sample_authorized) as [_ Hfound].
  destruct (Hfound sample_exists)
    as (pre & d & post & d' & Hc & Hd & _ & Hc' & _ & _ & Hk).
  exists pre, d, post, d'. split_and!; [done|done|done|by rewrite Hk..].
Defined.

(** C7: an authorized update of an existing id with no member in the body
    sends no write to the store and leaves the whole state as it was; it
    returns what reading the coupon returns, the first document with the id
    with its timestamp parsed, and never the 404 error. *)
Theorem update_coupon_no_fields (coupon_id : string) (authorization : option string)
    (st : state) :
  authorized authorization st →
  exists_id coupon_id st →
  ∃ d,
    d ∈ coupons st ∧ d !! "id" = Some (VStr coupon_id) ∧
    update_coupon coupon_id (CouponUpdate.validate empty_body) authorization st
    = (read_created_at d, st) ∧
    get_coupon coupon_id st = (read_created_at d, st) ∧
    (∀ detail, read_created_at d ≠ Raise (HTTPException 404 detail)) ∧
    (∀ t, Datetime.valid t = true → d !! "created_at" = Some (VStr (isoformat t)) →
          read_created_at d = Return (<["created_at" := VDatetime t]> d)).
Proof.
  intros [token Hv] Hex.
  destruct (exists_id_split _ _ Hex) as (pre & d & post & Hc & Hd & Hpre).
  destruct st as [sessions c w]. cbn [coupons] in Hc. subst c.
  exists d. split; [|split; [done|split; [|split; [|split]]]].
  - apply elem_of_app. right. left.
  - by rewrite (update_coupon_found coupon_id empty_body authorization token
                  sessions pre d post w Hv Hd Hpre).
  - unfold get_coupon.
    rewrite (bind_return _ _ _ _ _ (find_one_at _ _ _ _ _ _ Hd Hpre)).
    by rewrite (missing_found _ _ Hd).
  - intros detail. unfold read_created_at.
    destruct (d !! "created_at") as [[| |s|]|]; try done.
    by destruct (fromisoformat s).
  - intros t Ht Hs. unfold read_created_at.
    by rewrite Hs, fromisoformat_isoformat.
Qed.

Lemma update_coupon_no_fields_witness :
  authorized bearer one_coupon ∧ exists_id "c-1" one_coupon ∧
  update_coupon "c-1" (CouponUpdate.validate empty_body) bearer one_coupon
  = get_coupon "c-1" one_coupon.
Proof.
  split; [exact sample_authorized|]. split; [exact sample_exists|].
  destruct (update_coupon_no_fields "c-1" bearer one_coupon sample_authorized
              sample_exists) as (d & _ & _ & Hup & Hget & _).
  by rewrite Hup, Hget.
Defined.

(** ** Identity of the documents *)

Lemma update_coupon_identities coupon_id u authorization st :
  identities (update_coupon coupon_id u authorization st).2 = identities st.
Proof.
  destruct (verify_admin_token_cases authorization st) as [[token Hv]|[e Hv]].
  - destruct (validate_surjective u) as [b <-].
    destruct (decide (Exists (λ d : dict, d !! "id" = Some (VStr coupon_id)) (coupons st)))
      as [Hex|Hno].
    + destruct (exists_id_split _ _ Hex) as (pre & d & post & Hc & Hd & Hpre).
      destruct st as [sessions c w]. cbn [coupons] in Hc. subst c.
      rewrite (update_coupon_found coupon_id b authorization token sessions
                 pre d post w Hv Hd Hpre).
      destruct (decide (update_data (CouponUpdate.validate b) = ∅)); [done|].
      unfold identities. cbn [snd coupons].
      rewrite !fmap_app, !fmap_cons. do 3 f_equal.
      * apply lookup_union_r, update_data_id.
      * apply lookup_union_r, update_data_created_at.
    + by rewrite (update_coupon_absent _ _ _ token).
  - unfold update_coupon. by rewrite (bind_raise _ _ _ _ _ Hv).
Qed.

(** C8: whatever sequence of update requests is run, every document of the
    collection keeps the id and the creation time it had: no update writes
    either field. *)
Theorem updates_preserve_identities
    (rs : list (string * CouponUpdate.t * option string)) (st : state) :
  identities (updates rs st) = identities st.
Proof.
  revert st. induction rs as [|[[i u] a] rs IH]; intros st; [done|].
  cbn [updates]. by rewrite IH, update_coupon_identities.
Qed.

(** ** Create, then read *)

Lemma read_created_at_stored (d : dict) t :
  Datetime.valid t = true →
  d !! "created_at" = Some (VDatetime t) →
  read_created_at (<["created_at" := VStr (isoformat t)]> d) = Return d.
Proof.
  intros Hv Hd. unfold read_created_at.
  rewrite lookup_insert_eq, fromisoformat_isoformat by done.
  by rewrite insert_insert_eq, insert_id.
Qed.

(** C6: after an authorized create that drew an id no stored document has
    and the time [now], reading that id returns the dump of the created
    object: the eight fields of the input, the generated id, and [now].
    The document is stored with [created_at] as the ISO-8601 text of [now]
    and the read parses it back to [now] itself; for every valid timestamp
    the text is read back unchanged, microsecond and UTC offset included. *)
Theorem create_then_get (coupon : CouponCreate.t) (authorization : option string)
    (uuid : string) (now : datetime) (st : state) :
  authorized authorization st →
  ¬ exists_id uuid st →
  Datetime.valid now = true →
  ∃ obj st' record,
    create_coupon coupon authorization uuid now st = (Return obj, st') ∧
    Coupon.id obj = uuid ∧
    coupons st' =
      (coupons st ++ [<["created_at" := VStr (isoformat now)]> (Coupon.model_dump obj)])%list ∧
    get_coupon uuid st' = (Return record, st') ∧
    record = Coupon.model_dump obj ∧
    record !! "id" = Some (VStr uuid) ∧
    record !! "created_at" = Some (VDatetime now) ∧
    record !! "store_name" = Some (VStr (CouponCreate.store_name coupon)) ∧
    record !! "logo_url" = Some (of_optional (CouponCreate.logo_url coupon)) ∧
    record !! "title" = Some (VStr (CouponCreate.title coupon)) ∧
    record !! "code" = Some (VStr (CouponCreate.code coupon)) ∧
    record !! "description" = Some (VStr (CouponCreate.description coupon)) ∧
    record !! "category" = Some (VStr (CouponCreate.category coupon)) ∧
    record !! "expiry_date" = Some (VStr (CouponCreate.expiry_date coupon)) ∧
    record !! "featured" = Some (VBool (CouponCreate.featured coupon)) ∧
    ∀ t, Datetime.valid t = true → fromisoformat (isoformat t) = Some t.
Proof.
  intros [token Hv] Hfresh Hnow.
  eexists _, _, _. split.
  { unfold create_coupon. rewrite (bind_return _ _ _ _ _ Hv). reflexivity. }
  cbn [coupons]. split; [done|]. split; [done|]. split.
  { unfold get_coupon.
    assert (Forall (λ x : dict, ¬ x !! "id" = Some (VStr uuid)) (coupons st)) as Hpre
      by (by apply not_Exists_Forall; [intros x; apply _|]).
    match goal with
    | |- context [ (?xs ++ [?doc])%list ] =>
        assert (doc !! "id" = Some (VStr uuid)) as Hd
          by (by rewrite lookup_insert_ne by done);
        rewrite (bind_return _ _ _ _ _ (find_one_at _ _ _ _ [] _ Hd Hpre));
        rewrite (missing_found _ _ Hd)
    end.
    unfold lift. by rewrite read_created_at_stored. }
  split_and!; try done. intros t. apply fromisoformat_isoformat.
Qed.

Lemma fresh_id_sample : ¬ exists_id "c-2" one_coupon.
Proof. apply (bool_decide_unpack _). vm_compute. exact I. Qed.

Lemma create_then_get_witness :
  authorized bearer one_coupon ∧ ¬ exists_id "c-2" one_coupon ∧
  Datetime.valid sample_now = true ∧
  ∃ record,
    get_coupon "c-2" (create_coupon adidas bearer "c-2" sample_now one_coupon).2
    = (Return record, (create_coupon adidas bearer "c-2" sample_now one_coupon).2) ∧
    record !! "store_name" = Some (VStr "Adidas") ∧
    record !! "created_at" = Some (VDatetime sample_now).
Proof.
  split; [exact sample_authorized|]. split; [exact fresh_id_sample|].
  split; [reflexivity|].
  destruct (create_then_get adidas bearer "c-2" sample_now one_coupon
              sample_authorized fresh_id_sample eq_refl)
    as (obj & st' & record & Hc & _ & _ & Hg & _ & _ & Ht & Hs & _).
  exists record. rewrite Hc. cbn [snd]. by split_and!.
Defined.

(** ** Listing *)

Lemma mapM_result_length {A B} (f : A → result B) l k :
  mapM f l = Return k → List.length k = List.length l.
Proof.
  revert k. induction l as [|x l IH]; intros k; cbn.
  - by intros [= <-].
  - destruct (f x) as [y|e]; cbn; [|done].
    destruct (mapM f l) as [k'|e]; cbn; [|done].
    intros [= <-]. cbn. by rewrite (IH k').
Qed.

Lemma mapM_result_Forall {A B} (f : A → result B) (P : A → Prop) (Q : B → Prop) l k :
  (∀ x y, P x → f x = Return y → Q y) →
  mapM f l = Return k → Forall P l → Forall Q k.
Proof.
  intros Hf. revert k. induction l as [|x l IH]; intros k; cbn.
  - intros [= <-] _. constructor.
  - destruct (f x) as [y|e] eqn:Hy; cbn; [|done].
    destruct (mapM f l) as [k'|e]; cbn; [|done].
    intros [= <-] Hl. apply Forall_cons_1 in Hl as [Hx Hl].
    constructor; [by eapply Hf|by apply IH].
Qed.

Lemma comprehension_Forall {A} (p : A → result bool) (P : A → Prop) l r :
  comprehension p l = Return r → Forall P l → Forall P r.
Proof.
  revert r. induction l as [|x l IH]; intros r; cbn.
  - intros [= <-] _. constructor.
  - destruct (p x) as [b|e]; cbn; [|done].
    destruct (comprehension p l) as [r'|e]; cbn; [|done].
    intros [= <-] Hl. apply Forall_cons_1 in Hl as [Hx Hl].
    destruct b; [constructor|]; by auto.
Qed.

(** When the condition is a total test, the comprehension is a filter. *)
Lemma comprehension_filter {A} (p : A → result bool) (P : A → Prop)
    `{!∀ x, Decision (P x)} (Q : A → Prop) l :
  (∀ x, Q x → p x = Return (bool_decide (P x))) →
  Forall Q l → comprehension p l = Return (filter P l).
Proof.
  intros Hp. induction 1 as [|x l Hx Hl IH]; [done|].
  cbn [comprehension]. rewrite (Hp x Hx), IH. cbn [mbind result_bind].
  rewrite filter_cons.
  by case_decide; [rewrite bool_decide_eq_true_2|rewrite bool_decide_eq_false_2].
Qed.

Lemma read_created_at_other (d r : dict) k :
  k ≠ "created_at" → read_created_at d = Return r → r !! k = d !! k.
Proof.
  intros Hk. unfold read_created_at.
  destruct (d !! "created_at") as [[| |s|]|]; try by intros [= <-].
  destruct (fromisoformat s); [|done].
  intros [= <-]. by rewrite lookup_insert_ne.
Qed.

Lemma get_lower_text lower (d : dict) k :
  match d !! k with None | Some (VStr _) => True | Some _ => False end →
  get_lower lower d k = Return (lower (text d k)).
Proof. unfold get_lower, text. by destruct (d !! k) as [[| | |]|]. Qed.

Lemma search_hit_textual lower search d :
  textual d →
  search_hit lower (lower search) d
  = Return (bool_decide (search_match lower search d)).
Proof.
  intros Ht. unfold textual in Ht.
  apply Forall_cons_1 in Ht as [H1 Ht]. apply Forall_cons_1 in Ht as [H2 Ht].
  apply Forall_cons_1 in Ht as [H3 _].
  unfold search_hit.
  rewrite (get_lower_text _ _ _ H1). cbn [mbind result_bind].
  destruct (contains (lower search) (lower (text d "store_name"))) eqn:E1.
  { symmetry. f_equal. apply bool_decide_eq_true_2. by left. }
  rewrite (get_lower_text _ _ _ H2). cbn [mbind result_bind].
  destruct (contains (lower search) (lower (text d "title"))) eqn:E2.
  { symmetry. f_equal. apply bool_decide_eq_true_2. right. by left. }
  rewrite (get_lower_text _ _ _ H3). cbn [mbind result_bind].
  destruct (contains (lower search) (lower (text d "category"))) eqn:E3.
  { symmetry. f_equal. apply bool_decide_eq_true_2. right. by right. }
  symmetry. f_equal. apply bool_decide_eq_false_2.
  unfold search_match. intros [?|[?|?]]; congruence.
Qed.

Lemma search_match_empty lower d : lower "" = "" → search_match lower "" d.
Proof.
  intros Hl. left. rewrite Hl.
  destruct (lower (text d "store_name")); reflexivity.
Qed.

Lemma filter_all {A} (P : A → Prop) `{!∀ x, Decision (P x)} (l : list A) :
  (∀ x, P x) → filter P l = l.
Proof.
  intros HP. induction l as [|x l IH]; [done|].
  rewrite filter_cons, decide_True by done. by rewrite IH.
Qed.

Lemma length_filter_le {A} (P : A → Prop) `{!∀ x, Decision (P x)} (l : list A) :
  (List.length (filter P l) ≤ List.length l)%nat.
Proof.
  induction l as [|x l IH]; [done|].
  rewrite filter_cons. destruct (decide (P x)); cbn; lia.
Qed.

(** The filter document [get_coupons] builds selects by [selected]. *)
Lemma query_selected category featured (d : dict) :
  matches
    (match featured with
     | Some f =>
         <["featured" := VBool f]>
           (match category with
            | Some c => if truthy c then <["category" := VStr c]> (∅ : dict) else ∅
            | None => ∅
            end)
     | None =>
         match category with
         | Some c => if truthy c then <["category" := VStr c]> (∅ : dict) else ∅
         | None => ∅
         end
     end) d
  ↔ selected category featured d.
Proof.
  unfold matches, selected.
  destruct category as [[|a c]|], featured as [f|]; cbn [truthy];
    rewrite ?map_Forall_insert, ?map_Forall_empty
      by (by rewrite ?lookup_insert_ne, ?lookup_empty by done);
    intuition (try discriminate).
Qed.

(** [get_coupons] in one equation: retrieval, conversion, search. *)
Lemma get_coupons_unfold lower category search featured st :
  get_coupons lower category search featured st =
  (coupons ← mapM read_created_at
               (take 1000 (filter (selected category featured) (coupons st)));
   match search with
   | Some s =>
       if truthy s then comprehension (search_hit lower (lower s)) coupons
       else Return coupons
   | None => Return coupons
   end, st).
Proof.
  unfold get_coupons. cbv zeta.
  unfold mbind at 1, handler_bind at 1, find_to_list.
  rewrite (list_filter_iff _ (selected category featured))
    by (intros d; apply query_selected).
  unfold mbind at 1, handler_bind at 1, lift.
  destruct (mapM read_created_at _) as [l|e]; cbn; [|done].
  by destruct search as [[|a s]|].
Qed.

(** C3, the input on which it fails: the query [?category=] carries the
    category [""], and the coupon of category ["Fashion"] is returned; the
    category that is present is not applied as an exact-match filter. *)
Lemma get_coupons_empty_category_not_applied :
  match (get_coupons lower_ascii (Some "") None None one_coupon).1 with
  | Return l => (λ d : dict, d !! "category") <$> l
  | Raise _ => []
  end = [Some (VStr "Fashion")].
Proof. vm_refl. Qed.

(** C3 as amended: [retrieved], the answer without a search term, is the
    conversion of the first 1000 stored documents that match both
    structured filters, where the category filter applies only when the
    category is given and not empty, and the featured filter whenever the
    flag is given.  With a search term the answer is exactly the retrieved
    records whose store name, title or category contains the term, both
    folded by [str.lower].  At most 1000 records are returned.  This holds
    whenever the retrieval returns and the three searched fields of the
    retrieved records are strings, as in every document the routes write,
    and for every folding [lower] that keeps the empty string empty. *)
Theorem get_coupons_filters (lower : string → string)
    (category search : option string) (featured : option bool) (st : state)
    (retrieved : list dict) :
  lower "" = "" →
  get_coupons lower category None featured st = (Return retrieved, st) →
  Forall textual retrieved →
  mapM read_created_at (take 1000 (filter (selected category featured) (coupons st)))
  = Return retrieved ∧
  (List.length retrieved ≤ 1000)%nat ∧
  ∃ result,
    get_coupons lower category search featured st = (Return result, st) ∧
    result = match search with
             | Some s => filter (search_match lower s) retrieved
             | None => retrieved
             end ∧
    (List.length result ≤ 1000)%nat.
Proof.
  intros Hlower Hget Htext. rewrite get_coupons_unfold in Hget.
  destruct (mapM read_created_at _) as [l|e] eqn:Hl; cbn in Hget; [|done].
  injection Hget as ->.
  assert (List.length retrieved ≤ 1000)%nat as Hlen.
  { rewrite (mapM_result_length _ _ _ Hl), length_take. lia. }
  split; [done|]. split; [done|].
  rewrite get_coupons_unfold, Hl. cbn [mbind result_bind].
  destruct search as [s|]; [|by eexists].
  exists (filter (search_match lower s) retrieved).
  split; [|split; [done|]].
  - f_equal. destruct s as [|a s]; cbn [truthy].
    + by rewrite filter_all by (intros d; by apply search_match_empty).
    + by apply (comprehension_filter _ _ textual), Htext; intros;
        apply search_hit_textual.
  - etransitivity; [apply length_filter_le|done].
Qed.

Lemma get_coupons_filters_witness :
  lower_ascii "" = "" ∧
  get_coupons lower_ascii (Some "Fashion") None None two_coupons
  = (Return fashion_coupons, two_coupons) ∧
  Forall textual fashion_coupons ∧
  get_coupons lower_ascii (Some "Fashion") (Some "NIKE") None two_coupons
  = (Return (filter (search_match lower_ascii "NIKE") fashion_coupons), two_coupons).
Proof.
  assert (get_coupons lower_ascii (Some "Fashion") None None two_coupons
          = (Return fashion_coupons, two_coupons)) as Hget by vm_refl.
  assert (Forall textual fashion_coupons) as Htext
    by (apply (bool_decide_unpack _); vm_compute; exact I).
  split; [reflexivity|]. split; [exact Hget|]. split; [exact Htext|].
  destruct (get_coupons_filters lower_ascii (Some "Fashion") (Some "NIKE") None
              two_coupons fashion_coupons eq_refl Hget Htext)
    as (_ & _ & result & Hres & Heq & _).
  by rewrite Hres, Heq.
Defined.

Lemma selected_featured category flag (d : dict) :
  selected category (Some flag) d
  ↔ selected category None d ∧ d !! "featured" = Some (VBool flag).
Proof. unfold selected. tauto. Qed.

(** C10: an empty category and an empty search term are treated as if the
    parameter were absent, the two calls being equal.  A featured flag that
    is given, [false] included, is an exact-match filter: the answer is the
    answer of the same query without the flag on the collection reduced to
    the documents whose [featured] field equals the flag; without a search
    term it is the conversion of the first 1000 documents that match the
    category filter and carry the flag; every record of the answer carries
    the flag; and on a collection with a featured coupon the answer to
    [featured=false] differs from the answer without the parameter. *)
Theorem get_coupons_empty_parameters (lower : string → string)
    (category search : option string) (featured : option bool) (flag : bool)
    (st : state) :
  get_coupons lower (Some "") search featured st
  = get_coupons lower None search featured st ∧
  get_coupons lower category (Some "") featured st
  = get_coupons lower category None featured st ∧
  (get_coupons lower category search (Some flag) st).1
  = (get_coupons lower category search None
       (mk_state (admin_sessions st)
          (filter (λ d : dict, d !! "featured" = Some (VBool flag)) (coupons st))
          (writes st))).1 ∧
  (get_coupons lower category None (Some flag) st).1
  = mapM read_created_at
      (take 1000
         (filter (λ d : dict, selected category None d ∧
                              d !! "featured" = Some (VBool flag))
            (coupons st))) ∧
  (∀ result,
     get_coupons lower category search (Some flag) st = (Return result, st) →
     Forall (λ d : dict, d !! "featured" = Some (VBool flag)) result) ∧
  get_coupons lower None None (Some false) two_coupons
  ≠ get_coupons lower None None None two_coupons.
Proof.
  split; [done|]. split; [done|]. split; [|split; [|split]].
  - rewrite !get_coupons_unfold. cbn [fst coupons].
    rewrite list_filter_filter.
    by rewrite (list_filter_iff (selected category (Some flag)) _ _
                  (selected_featured category flag)).
  - rewrite get_coupons_unfold. cbn [fst].
    rewrite (list_filter_iff (selected category (Some flag)) _ _
               (selected_featured category flag)).
    by destruct (mapM read_created_at _).
  - intros result. rewrite get_coupons_unfold.
    destruct (mapM read_created_at _) as [l|e] eqn:Hl; cbn [mbind result_bind]; [|done].
    assert (Forall (λ d : dict, d !! "featured" = Some (VBool flag)) l) as Hfl.
    { eapply (mapM_result_Forall _ (λ d : dict, d !! "featured" = Some (VBool flag)));
        [|exact Hl|].
      - intros d r Hd Hr. cbn beta.
        by rewrite (read_created_at_other d r "featured" ltac:(done) Hr).
      - apply Forall_forall. intros d Hd.
        apply elem_of_take in Hd as (i & Hd & _).
        apply list_elem_of_lookup_2 in Hd.
        apply list_elem_of_filter in Hd as [[_ Hf] _]. exact Hf. }
    destruct search as [[|a s]|]; cbn [truthy].
    + by intros [= <-].
    + intros [= Hc]. by eapply comprehension_Forall.
    + by intros [= <-].
  - intros E.
    apply (f_equal (λ r : result (list dict) * state,
                      match r.1 with
                      | Return l => List.length l
                      | Raise _ => 0
                      end)) in E.
    vm_compute in E. discriminate E.
Qed.

(** * Further properties of the handlers *)

(** ** The authorization gate *)

(** X1: a header that is missing, empty, or does not begin with the exact
    scheme ["Bearer "] (another scheme, or the scheme in another case) is
    refused with 401 "Not authenticated", whatever sessions exist. *)
Theorem verify_admin_token_requires_scheme (authorization : option string)
    (st : state) :
  (∀ h, authorization = Some h → startswith h "Bearer " = false) →
  verify_admin_token authorization st
  = (Raise (HTTPException 401 "Not authenticated"), st).
Proof.
  intros Hscheme. destruct authorization as [h|]; [|done].
  by apply verify_admin_token_scheme, Hscheme.
Qed.

Lemma verify_admin_token_requires_scheme_witness :
  is_Some (admin_sessions logged_in !! sample_token) ∧
  verify_admin_token lowercase_bearer logged_in
  = (Raise (HTTPException 401 "Not authenticated"), logged_in).
Proof.
  split; [apply (bool_decide_unpack _); vm_compute; exact I|].
  apply (verify_admin_token_requires_scheme lowercase_bearer logged_in).
  by intros h [= <-].
Defined.

(** X2: for a header made of the scheme and a token in which the scheme does
    not occur again, the gate returns the token when it is a key of
    [admin_sessions] and raises 401 "Invalid or expired token" when not. *)
Theorem verify_admin_token_plain_token (t : string) (st : state) :
  contains "Bearer " t = false →
  (is_Some (admin_sessions st !! t) →
   verify_admin_token (Some ("Bearer " +:+ t)) st = (Return t, st)) ∧
  (admin_sessions st !! t = None →
   verify_admin_token (Some ("Bearer " +:+ t)) st
   = (Raise (HTTPException 401 "Invalid or expired token"), st)).
Proof.
  intros Ht. rewrite (verify_admin_token_bearer t st Ht). split.
  - by intros [s ->].
  - by intros ->.
Qed.

Lemma verify_admin_token_plain_token_witness :
  contains "Bearer " sample_token = false ∧
  verify_admin_token (Some ("Bearer " +:+ sample_token)) logged_in
  = (Return sample_token, logged_in) ∧
  verify_admin_token (Some ("Bearer " +:+ sample_token)) fresh_state
  = (Raise (HTTPException 401 "Invalid or expired token"), fresh_state).
Proof.
  split; [reflexivity|]. split.
  - apply (verify_admin_token_plain_token sample_token logged_in eq_refl).
    apply (bool_decide_unpack _). vm_compute. exact I.
  - by apply (verify_admin_token_plain_token sample_token fresh_state eq_refl).
Defined.

(** X3: whenever the gate returns, the state is unchanged, the header begins
    with the scheme, and the returned token is a key of [admin_sessions],
    namely the header with every occurrence of the scheme removed. *)
Theorem verify_admin_token_sound (authorization : option string)
    (st st' : state) (t : string) :
  verify_admin_token authorization st = (Return t, st') →
  st' = st ∧
  is_Some (admin_sessions st !! t) ∧
  ∃ h, authorization = Some h ∧ startswith h "Bearer " = true ∧
       t = replace h "Bearer " "".
Proof.
  unfold verify_admin_token. destruct authorization as [h|]; [|done].
  destruct (truthy h); cbn [negb orb]; [|done].
  destruct (startswith h "Bearer ") eqn:Hs; cbn [negb]; [|done].
  destruct (admin_sessions st !! replace h "Bearer " "") as [s|] eqn:Hl; [|done].
  intros [= <- <-]. split; [done|]. split; [by rewrite Hl|]. by exists h.
Qed.

Lemma verify_admin_token_sound_witness :
  verify_admin_token bearer logged_in = (Return sample_token, logged_in) ∧
  is_Some (admin_sessions logged_in !! sample_token).
Proof.
  assert (verify_admin_token bearer logged_in = (Return sample_token, logged_in))
    as Hv by vm_refl.
  split; [exact Hv|].
  by destruct (verify_admin_token_sound bearer logged_in logged_in sample_token Hv)
    as (_ & Hs & _).
Defined.

(** ** What the handlers leave alone *)

Lemma lift_state {A} (r : result A) st : (lift r st).2 = st.
Proof. done. Qed.

Lemma get_coupons_state lower category search featured st :
  (get_coupons lower category search featured st).2 = st.
Proof. by rewrite get_coupons_unfold. Qed.

Lemma get_coupon_cases coupon_id st :
  (¬ exists_id coupon_id st ∧
   get_coupon coupon_id st = (Raise (HTTPException 404 "Coupon not found"), st)) ∨
  (∃ pre d post,
     coupons st = (pre ++ d :: post)%list ∧ d !! "id" = Some (VStr coupon_id) ∧
     Forall (λ x : dict, ¬ x !! "id" = Some (VStr coupon_id)) pre ∧
     get_coupon coupon_id st = (read_created_at d, st)).
Proof.
  destruct (decide (exists_id coupon_id st)) as [Hex|Hno].
  - right. destruct (exists_id_split _ _ Hex) as (pre & d & post & Hc & Hd & Hpre).
    exists pre, d, post. split_and!; [done..|].
    destruct st as [sessions c w]. cbn [coupons] in Hc. subst c.
    unfold get_coupon.
    rewrite (bind_return _ _ _ _ _ (find_one_at _ _ _ _ _ _ Hd Hpre)).
    by rewrite (missing_found _ _ Hd).
  - left. split; [done|]. unfold get_coupon.
    by rewrite (bind_return _ _ _ _ _ (find_one_absent _ _ Hno)).
Qed.

Lemma read_created_at_not_http (d : dict) status detail :
  read_created_at d ≠ Raise (HTTPException status detail).
Proof.
  unfold read_created_at.
  destruct (d !! "created_at") as [[| |s|]|]; try done.
  by destruct (fromisoformat s).
Qed.

Lemma get_coupon_state coupon_id st : (get_coupon coupon_id st).2 = st.
Proof.
  destruct (get_coupon_cases coupon_id st)
    as [[_ ->]|(pre & d & post & _ & _ & _ & ->)]; done.
Qed.

(** X4: the two public read routes never change the state: neither the
    collection, nor the sessions, nor the count of write commands, whether
    they return or raise. *)
Theorem public_reads_change_nothing (lower : string → string)
    (category search : option string) (featured : option bool)
    (coupon_id : string) (st : state) :
  (get_coupons lower category search featured st).2 = st ∧
  (get_coupon coupon_id st).2 = st.
Proof. split; [apply get_coupons_state|apply get_coupon_state]. Qed.

(** X5: [get_coupon] raises 404 "Coupon not found" exactly when no stored
    document has the id. *)
Theorem get_coupon_not_found_iff (coupon_id : string) (st : state) :
  (get_coupon coupon_id st).1 = Raise (HTTPException 404 "Coupon not found")
  ↔ ¬ exists_id coupon_id st.
Proof.
  destruct (get_coupon_cases coupon_id st)
    as [[Hno ->]|(pre & d & post & Hc & Hd & _ & ->)]; cbn [fst].
  - done.
  - split.
    + intros E. by apply read_created_at_not_http in E.
    + intros Hno. destruct Hno. unfold exists_id. rewrite Hc.
      apply Exists_app. right. by left.
Qed.

(** ** Deleting *)

Lemma remove_first_id coupon_id pre d post :
  d !! "id" = Some (VStr coupon_id) →
  Forall (λ x : dict, ¬ x !! "id" = Some (VStr coupon_id)) pre →
  remove_first {["id" := VStr coupon_id]} (pre ++ d :: post)%list
  = (1, (pre ++ post)%list).
Proof.
  intros Hd Hpre. induction pre as [|x pre IH]; cbn [remove_first app].
  - rewrite decide_True; [done|by apply matches_id].
  - apply Forall_cons_1 in Hpre as [Hx Hpre].
    rewrite decide_False; [|by rewrite matches_id]. by rewrite IH.
Qed.

Lemma remove_first_absent coupon_id l :
  Forall (λ x : dict, ¬ x !! "id" = Some (VStr coupon_id)) l →
  remove_first {["id" := VStr coupon_id]} l = (0, l).
Proof.
  induction 1 as [|x l Hx Hl IH]; [done|]. cbn [remove_first].
  rewrite decide_False; [|by rewrite matches_id]. by rewrite IH.
Qed.

Lemma delete_coupon_found coupon_id authorization token st pre d post :
  verify_admin_token authorization st = (Return token, st) →
  coupons st = (pre ++ d :: post)%list →
  d !! "id" = Some (VStr coupon_id) →
  Forall (λ x : dict, ¬ x !! "id" = Some (VStr coupon_id)) pre →
  delete_coupon coupon_id authorization st
  = (Return {["message" := VStr "Coupon deleted successfully"]},
     mk_state (admin_sessions st) (pre ++ post) (S (writes st))).
Proof.
  intros Hv Hc Hd Hpre. unfold delete_coupon.
  rewrite (bind_return _ _ _ _ _ Hv).
  unfold mbind, handler_bind, delete_one.
  by rewrite Hc, (remove_first_id _ _ _ _ Hd Hpre).
Qed.

Lemma delete_coupon_absent coupon_id authorization token st :
  verify_admin_token authorization st = (Return token, st) →
  ¬ exists_id coupon_id st →
  delete_coupon coupon_id authorization st
  = (Raise (HTTPException 404 "Coupon not found"),
     mk_state (admin_sessions st) (coupons st) (S (writes st))).
Proof.
  intros Hv Hno. unfold delete_coupon.
  rewrite (bind_return _ _ _ _ _ Hv).
  unfold mbind, handler_bind, delete_one.
  rewrite remove_first_absent; [done|].
  by apply not_Exists_Forall; [intros x; apply _|].
Qed.

(** X6: an authorized delete removes the first stored document with the id and
    keeps every other document, in order; when no document has the id it
    raises 404 "Coupon not found" and the collection is as before.  In both
    cases one write command went to the store and the sessions are kept. *)
Theorem delete_coupon_removes_first (coupon_id : string)
    (authorization : option string) (st : state) :
  authorized authorization st →
  (¬ exists_id coupon_id st →
   delete_coupon coupon_id authorization st
   = (Raise (HTTPException 404 "Coupon not found"),
      mk_state (admin_sessions st) (coupons st) (S (writes st)))) ∧
  (exists_id coupon_id st →
   ∃ pre d post,
     coupons st = (pre ++ d :: post)%list ∧
     d !! "id" = Some (VStr coupon_id) ∧
     Forall (λ x : dict, ¬ x !! "id" = Some (VStr coupon_id)) pre ∧
     delete_coupon coupon_id authorization st
     = (Return {["message" := VStr "Coupon deleted successfully"]},
        mk_state (admin_sessions st) (pre ++ post) (S (writes st)))).
Proof.
  intros [token Hv]. split.
  - intros Hno. by apply (delete_coupon_absent _ _ token).
  - intros Hex. destruct (exists_id_split _ _ Hex) as (pre & d & post & Hc & Hd & Hpre).
    exists pre, d, post. split_and!; [done..|].
    exact (delete_coupon_found _ _ token _ _ _ _ Hv Hc Hd Hpre).
Qed.

Lemma delete_coupon_removes_first_witness :
  authorized bearer two_coupons ∧ exists_id "c-1" two_coupons ∧
  ¬ exists_id "c-9" two_coupons ∧
  delete_coupon "c-9" bearer two_coupons
  = (Raise (HTTPException 404 "Coupon not found"),
     mk_state (admin_sessions two_coupons) (coupons two_coupons)
       (S (writes two_coupons))) ∧
  ∃ pre d post,
    coupons two_coupons = (pre ++ d :: post)%list ∧
    delete_coupon "c-1" bearer two_coupons
    = (Return {["message" := VStr "Coupon deleted successfully"]},
       mk_state (admin_sessions two_coupons) (pre ++ post) (S (writes two_coupons))).
Proof.
  assert (authorized bearer two_coupons) as Ha
    by (exists sample_token; vm_refl).
  assert (exists_id "c-1" two_coupons) as Hex
    by (apply (bool_decide_unpack _); vm_compute; exact I).
  assert (¬ exists_id "c-9" two_coupons) as Hno
    by (apply (bool_decide_unpack _); vm_compute; exact I).
  split; [exact Ha|]. split; [exact Hex|]. split; [exact Hno|].
  split.
  - by apply (delete_coupon_removes_first "c-9" bearer two_coupons Ha).
  - destruct (delete_coupon_removes_first "c-1" bearer two_coupons Ha) as [_ Hfound].
    destruct (Hfound Hex) as (pre & d & post & Hc & _ & _ & Hdel).
    exists pre, d, post. split; [exact Hc|exact Hdel].
Defined.

(** ** The effect of an admin request *)

Lemma verify_admin_token_sessions authorization st st' t :
  admin_sessions st' = admin_sessions st →
  verify_admin_token authorization st = (Return t, st) →
  verify_admin_token authorization st' = (Return t, st').
Proof.
  intros Hs. unfold verify_admin_token. destruct authorization as [h|]; [|done].
  destruct (negb (truthy h) || negb (startswith h "Bearer ")); [done|].
  rewrite Hs. destruct (admin_sessions st !! replace h "Bearer " ""); [|done].
  by intros [= <-].
Qed.

Lemma create_coupon_authorized coupon authorization token uuid now st :
  verify_admin_token authorization st = (Return token, st) →
  create_coupon coupon authorization uuid now st
  = (Return
       (Coupon.mk uuid
          (CouponCreate.store_name coupon) (CouponCreate.logo_url coupon)
          (CouponCreate.title coupon) (CouponCreate.code coupon)
          (CouponCreate.description coupon) (CouponCreate.category coupon)
          (CouponCreate.expiry_date coupon) (CouponCreate.featured coupon) now),
     mk_state (admin_sessions st)
       (coupons st ++
        [<["created_at" := VStr (isoformat now)]>
           (Coupon.model_dump
              (Coupon.mk uuid
                 (CouponCreate.store_name coupon) (CouponCreate.logo_url coupon)
                 (CouponCreate.title coupon) (CouponCreate.code coupon)
                 (CouponCreate.description coupon) (CouponCreate.category coupon)
                 (CouponCreate.expiry_date coupon) (CouponCreate.featured coupon)
                 now))])
       (S (writes st))).
Proof.
  intros Hv. unfold create_coupon. by rewrite (bind_return _ _ _ _ _ Hv).
Qed.

Lemma created_coupon_doc (obj : Coupon.t) :
  Datetime.valid (Coupon.created_at obj) = true →
  coupon_doc (<["created_at" := VStr (isoformat (Coupon.created_at obj))]>
                (Coupon.model_dump obj)).
Proof.
  intros Hnow. unfold coupon_doc. rewrite lookup_insert_eq.
  rewrite !lookup_insert_ne by done. split_and!.
  - by eexists.
  - repeat constructor; by eexists.
  - destruct obj as [? ? [logo|] ? ? ? ? ? ? ?]; [right; by eexists|by left].
  - by eexists.
  - by exists (Coupon.created_at obj).
Qed.

Lemma upload_logo_state file authorization st :
  (upload_logo file authorization st).2 = st.
Proof.
  destruct (verify_admin_token_cases authorization st) as [[token Hv]|[e Hv]];
    unfold upload_logo.
  - rewrite (bind_return _ _ _ _ _ Hv).
    destruct (UploadFile.content_type file) as [ct|]; [|done].
    by destruct (negb (truthy ct) || negb (startswith ct "image/")).
  - by rewrite (bind_raise _ _ _ _ _ Hv).
Qed.

(** What a request does to the collection: nothing, or it appends the
    created document, or it sets fields of the first document with the id,
    or it removes that document.  The sessions are kept in every case. *)
Lemma run_effect (r : admin_request) (st : state) :
  admin_sessions (run r st).2 = admin_sessions st ∧
  (coupons (run r st).2 = coupons st ∨
   (∃ coupon authorization uuid now doc,
      r = Create coupon authorization uuid now ∧
      coupons (run r st).2 = (coupons st ++ [doc])%list ∧
      doc !! "id" = Some (VStr uuid) ∧
      (Datetime.valid now = true → coupon_doc doc)) ∨
   (∃ coupon_id b authorization pre d post,
      r = Update coupon_id (CouponUpdate.validate b) authorization ∧
      coupons st = (pre ++ d :: post)%list ∧
      coupons (run r st).2
      = (pre ++ (update_data (CouponUpdate.validate b) ∪ d) :: post)%list) ∨
   (∃ coupon_id authorization pre d post,
      r = Delete coupon_id authorization ∧
      coupons st = (pre ++ d :: post)%list ∧
      coupons (run r st).2 = (pre ++ post)%list)).
Proof.
  destruct (verify_admin_token_cases (authorization_of r) st) as [[token Hv]|[e Hv]].
  2:{ assert ((verify_admin_token (authorization_of r) st).1 = Raise e) as Hfail
        by (by rewrite Hv).
      assert (run r st = (Some e, st)) as ->; [|by split; [|left]].
      destruct r; cbn [run authorization_of] in *;
        unfold create_coupon, update_coupon, delete_coupon, upload_logo;
        by rewrite (bind_raise _ _ _ _ _ Hv). }
  destruct r as [coupon a uuid now|coupon_id u a|coupon_id a|file a];
    cbn [run authorization_of] in *.
  - rewrite (create_coupon_authorized _ _ token _ _ _ Hv). cbn [outcome snd].
    split; [done|]. right. left. eexists _, _, _, _, _.
    split; [done|]. cbn [coupons]. split; [done|]. split.
    + by rewrite lookup_insert_ne.
    + intros Hnow. by apply (created_coupon_doc (Coupon.mk _ _ _ _ _ _ _ _ _ _)).
  - destruct (validate_surjective u) as [b <-].
    destruct (decide (exists_id coupon_id st)) as [Hex|Hno].
    + destruct (exists_id_split _ _ Hex) as (pre & d & post & Hc & Hd & Hpre).
      destruct st as [sessions c w]. cbn [coupons] in Hc. subst c.
      rewrite (update_coupon_found coupon_id b a token sessions pre d post w
                 Hv Hd Hpre).
      destruct (decide (update_data (CouponUpdate.validate b) = ∅)).
      * split; [by destruct (read_created_at d)|].
        left. by destruct (read_created_at d).
      * split; [by destruct (read_created_at _)|].
        right. right. left. exists coupon_id, b, a, pre, d, post.
        split; [done|]. split; [done|]. by destruct (read_created_at _).
    + rewrite (update_coupon_absent _ _ _ token _ Hv Hno). by split; [|left].
  - destruct (decide (exists_id coupon_id st)) as [Hex|Hno].
    + destruct (exists_id_split _ _ Hex) as (pre & d & post & Hc & Hd & Hpre).
      rewrite (delete_coupon_found _ _ token _ _ _ _ Hv Hc Hd Hpre).
      split; [done|]. right. right. right. by exists coupon_id, a, pre, d, post.
    + rewrite (delete_coupon_absent _ _ token _ Hv Hno). by split; [|left].
  - pose proof (upload_logo_state file a st) as Hst.
    destruct (upload_logo file a st) as [[x|e] st']; cbn in *; subst st';
      by split; [|left].
Qed.

(** ** Sessions *)

Lemma authorized_monotone authorization st st' :
  (∀ t, is_Some (admin_sessions st !! t) → is_Some (admin_sessions st' !! t)) →
  authorized authorization st → authorized authorization st'.
Proof.
  intros Hmono [t Hv].
  destruct (verify_admin_token_sound _ _ _ _ Hv) as (_ & Hs & h & -> & Hp & ->).
  exists (replace h "Bearer " ""). unfold verify_admin_token.
  unfold verify_admin_token in Hv.
  destruct (negb (truthy h) || negb (startswith h "Bearer ")); [done|].
  by destruct (Hmono _ Hs) as [s ->].
Qed.

Lemma step_sessions cfg lower r st t :
  is_Some (admin_sessions st !! t) →
  is_Some (admin_sessions (step cfg lower r st) !! t).
Proof.
  intros Hs. destruct r as [credentials entropy now|r|category search featured|i];
    cbn [step].
  - unfold admin_login.
    destruct (bool_decide _ && bool_decide _); [|done].
    cbn [snd admin_sessions]. apply lookup_insert_is_Some'. by right.
  - by rewrite (proj1 (run_effect r st)).
  - by rewrite get_coupons_state.
  - by rewrite get_coupon_state.
Qed.

(** X7: a header that is accepted stays accepted after any sequence of
    requests to any of the routes: no route removes a session and nothing
    expires. *)
Theorem authorization_persists (cfg : settings) (lower : string → string)
    (rs : list request) (authorization : option string) (st : state) :
  authorized authorization st →
  authorized authorization (steps cfg lower rs st).
Proof.
  revert st. induction rs as [|r rs IH]; intros st Ha; [done|].
  cbn [steps]. apply IH. revert Ha. apply authorized_monotone.
  intros t. apply step_sessions.
Qed.

Lemma authorization_persists_witness :
  authorized bearer logged_in ∧
  authorized bearer
    (steps default_settings lower_ascii
       [Admin (Create nike bearer "c-1" sample_now);
        Login (AdminLogin.mk "raj2151" "wrong") other_entropy sample_now;
        Login admin other_entropy sample_now;
        Admin (Delete "c-1" bearer);
        GetCoupon "c-1"]
       logged_in).
Proof.
  assert (authorized bearer logged_in) as Ha by (exists sample_token; vm_refl).
  split; [exact Ha|].
  exact (authorization_persists default_settings lower_ascii _ bearer logged_in Ha).
Defined.

(** ** Unique ids *)

Lemma exists_id_ids coupon_id st :
  exists_id coupon_id st ↔ Some (VStr coupon_id) ∈ ids st.
Proof.
  unfold exists_id, ids. rewrite Exists_exists, list_elem_of_fmap.
  split.
  - intros (d & Hd & Hi). by exists d.
  - intros (d & Hi & Hd). by exists d.
Qed.

(** X8: if no two stored documents share an id, this is still so after any
    create, update, delete or upload request, provided a create draws an id
    that no stored document has. *)
Theorem run_keeps_ids_unique (r : admin_request) (st : state) :
  unique_ids st → draws_fresh_id r st → unique_ids (run r st).2.
Proof.
  unfold unique_ids, ids. intros Hu Hfresh.
  destruct (run_effect r st) as [_ [Hc|[Hc|[Hc|Hc]]]].
  - by rewrite Hc.
  - destruct Hc as (coupon & a & uuid & now & doc & -> & -> & Hid & _).
    cbn [draws_fresh_id] in Hfresh. rewrite exists_id_ids in Hfresh.
    rewrite fmap_app. apply NoDup_app. split; [done|]. split.
    + intros x Hx. cbn. rewrite Hid. intros [->|[]%elem_of_nil]%elem_of_cons.
      by apply Hfresh.
    + cbn. apply NoDup_singleton.
  - destruct Hc as (i & b & a & pre & d & post & -> & Hcs & ->).
    rewrite Hcs in Hu. rewrite !fmap_app, !fmap_cons in *.
    by rewrite (lookup_union_r _ d "id") by apply update_data_id.
  - destruct Hc as (i & a & pre & d & post & -> & Hcs & ->).
    rewrite Hcs in Hu. rewrite !fmap_app, !fmap_cons in *.
    apply NoDup_app in Hu as (Hpre & Hdis & Hpost).
    apply NoDup_cons in Hpost as [_ Hpost].
    apply NoDup_app. split; [done|]. split; [|done].
    intros x Hx Hin. apply (Hdis x Hx). by right.
Qed.

Lemma run_keeps_ids_unique_witness :
  unique_ids one_coupon ∧
  draws_fresh_id (Create adidas bearer "c-2" sample_now) one_coupon ∧
  unique_ids two_coupons.
Proof.
  assert (unique_ids one_coupon) as Hu.
  { unfold unique_ids.
    replace (ids one_coupon) with [Some (VStr "c-1")] by (symmetry; vm_refl).
    apply NoDup_singleton. }
  split; [exact Hu|]. split; [exact fresh_id_sample|].
  assert (two_coupons = (run (Create adidas bearer "c-2" sample_now) one_coupon).2)
    as -> by vm_refl.
  exact (run_keeps_ids_unique (Create adidas bearer "c-2" sample_now) one_coupon
           Hu fresh_id_sample).
Defined.

(** X9: when ids are unique, an authorized delete followed by a read of the
    same id raises 404 "Coupon not found", whether the delete found the
    coupon or not. *)
Theorem delete_then_get_not_found (coupon_id : string)
    (authorization : option string) (st : state) :
  authorized authorization st →
  unique_ids st →
  get_coupon coupon_id (delete_coupon coupon_id authorization st).2
  = (Raise (HTTPException 404 "Coupon not found"),
     (delete_coupon coupon_id authorization st).2).
Proof.
  intros [token Hv] Hu.
  assert (¬ exists_id coupon_id (delete_coupon coupon_id authorization st).2) as Hno.
  { destruct (decide (exists_id coupon_id st)) as [Hex|Hno].
    - destruct (exists_id_split _ _ Hex) as (pre & d & post & Hc & Hd & Hpre).
      rewrite (delete_coupon_found _ _ token _ _ _ _ Hv Hc Hd Hpre).
      unfold exists_id. cbn [snd coupons]. rewrite Exists_app.
      unfold unique_ids, ids in Hu. rewrite Hc, fmap_app, fmap_cons in Hu.
      apply NoDup_app in Hu as (_ & _ & Hpost).
      apply NoDup_cons in Hpost as [Hnotin _].
      intros [Hin|Hin].
      + apply Exists_exists in Hin as (x & Hx & Hi).
        rewrite Forall_forall in Hpre. by apply (Hpre x Hx).
      + apply Hnotin. rewrite Hd. apply list_elem_of_fmap.
        apply Exists_exists in Hin as (x & Hx & Hi). by exists x.
    - by rewrite (delete_coupon_absent _ _ token _ Hv Hno). }
  by destruct (get_coupon_cases coupon_id (delete_coupon coupon_id authorization st).2)
    as [[_ ->]|(pre & d & post & Hc & Hd & _ & _)];
    [|destruct Hno; unfold exists_id; rewrite Hc; apply Exists_app; right; left].
Qed.

Lemma two_coupons_unique : unique_ids two_coupons.
Proof.
  unfold unique_ids.
  replace (ids two_coupons) with [Some (VStr "c-1"); Some (VStr "c-2")]
    by (symmetry; vm_refl).
  apply NoDup_cons. split; [|apply NoDup_singleton].
  by intros [[=]|[]%elem_of_nil]%elem_of_cons.
Qed.

Lemma two_coupons_authorized : authorized bearer two_coupons.
Proof. exists sample_token. vm_refl. Qed.

Lemma delete_then_get_not_found_witness :
  authorized bearer two_coupons ∧ unique_ids two_coupons ∧
  get_coupon "c-1" (delete_coupon "c-1" bearer two_coupons).2
  = (Raise (HTTPException 404 "Coupon not found"),
     (delete_coupon "c-1" bearer two_coupons).2).
Proof.
  split; [exact two_coupons_authorized|]. split; [exact two_coupons_unique|].
  exact (delete_then_get_not_found "c-1" bearer two_coupons
           two_coupons_authorized two_coupons_unique).
Defined.

(** ** Updates compose *)

(** X10: sending the same update a second time changes neither the collection
    nor the answer: the second request returns what the first returned and
    leaves the documents as the first left them. *)
Theorem update_coupon_idempotent (coupon_id : string)
    (coupon_update : CouponUpdate.t) (authorization : option string) (st : state) :
  (update_coupon coupon_id coupon_update authorization
     (update_coupon coupon_id coupon_update authorization st).2).1
  = (update_coupon coupon_id coupon_update authorization st).1 ∧
  coupons (update_coupon coupon_id coupon_update authorization
             (update_coupon coupon_id coupon_update authorization st).2).2
  = coupons (update_coupon coupon_id coupon_update authorization st).2.
Proof.
  destruct (validate_surjective coupon_update) as [b <-].
  destruct (verify_admin_token_cases authorization st) as [[token Hv]|[e Hv]].
  2:{ unfold update_coupon at 2 4 5. by rewrite (bind_raise _ _ _ _ _ Hv). }
  destruct (decide (exists_id coupon_id st)) as [Hex|Hno].
  2:{ by rewrite !(update_coupon_absent _ _ _ token _ Hv Hno). }
  destruct (exists_id_split _ _ Hex) as (pre & d & post & Hc & Hd & Hpre).
  destruct st as [sessions c w]. cbn [coupons] in Hc. subst c.
  rewrite !(update_coupon_found coupon_id b authorization token sessions pre d
              post w Hv Hd Hpre).
  destruct (decide (update_data (CouponUpdate.validate b) = ∅)) as [E|E].
  - cbn [snd].
    rewrite !(update_coupon_found coupon_id b authorization token sessions pre d
                post w Hv Hd Hpre).
    destruct (decide (update_data (CouponUpdate.validate b) = ∅)) as [_|Hne];
      [split; reflexivity|destruct (Hne E)].
  - cbn [snd fst].
    assert ((update_data (CouponUpdate.validate b) ∪ d) !! "id"
            = Some (VStr coupon_id)) as Hd'
      by (by rewrite lookup_union_r by apply update_data_id).
    assert (verify_admin_token authorization
              (mk_state sessions
                 (pre ++ (update_data (CouponUpdate.validate b) ∪ d) :: post) (S w))
            = (Return token,
               mk_state sessions
                 (pre ++ (update_data (CouponUpdate.validate b) ∪ d) :: post) (S w)))
      as Hv' by (by eapply verify_admin_token_sessions; [|exact Hv]).
    rewrite (update_coupon_found coupon_id b authorization token sessions pre _
               post (S w) Hv' Hd' Hpre).
    rewrite decide_False by done. cbn [fst snd coupons].
    assert (update_data (CouponUpdate.validate b)
              ∪ (update_data (CouponUpdate.validate b) ∪ d)
            = update_data (CouponUpdate.validate b) ∪ d) as ->.
    { apply map_eq. intros k. rewrite !lookup_union.
      by destruct (update_data (CouponUpdate.validate b) !! k), (d !! k). }
    split; reflexivity.
Qed.

(** X11: what a successful update returns is what a read of the id returns
    right after it. *)
Theorem update_then_get (coupon_id : string) (coupon_update : CouponUpdate.t)
    (authorization : option string) (st st' : state) (record : dict) :
  update_coupon coupon_id coupon_update authorization st = (Return record, st') →
  get_coupon coupon_id st' = (Return record, st').
Proof.
  destruct (validate_surjective coupon_update) as [b <-].
  destruct (verify_admin_token_cases authorization st) as [[token Hv]|[e Hv]].
  2:{ unfold update_coupon. by rewrite (bind_raise _ _ _ _ _ Hv). }
  destruct (decide (exists_id coupon_id st)) as [Hex|Hno].
  2:{ by rewrite (update_coupon_absent _ _ _ token _ Hv Hno). }
  destruct (exists_id_split _ _ Hex) as (pre & d & post & Hc & Hd & Hpre).
  destruct st as [sessions c w]. cbn [coupons] in Hc. subst c.
  rewrite (update_coupon_found coupon_id b authorization token sessions pre d
             post w Hv Hd Hpre).
  destruct (decide (update_data (CouponUpdate.validate b) = ∅)) as [E|E];
    intros Heq; apply pair_equal_spec in Heq as [Hr <-]; unfold get_coupon.
  - rewrite (bind_return _ _ _ _ _ (find_one_at _ _ _ _ _ _ Hd Hpre)).
    by rewrite (missing_found _ _ Hd), <- Hr.
  - assert ((update_data (CouponUpdate.validate b) ∪ d) !! "id"
            = Some (VStr coupon_id)) as Hd'
      by (by rewrite lookup_union_r by apply update_data_id).
    rewrite (bind_return _ _ _ _ _ (find_one_at _ _ _ _ _ _ Hd' Hpre)).
    by rewrite (missing_found _ _ Hd'), <- Hr.
Qed.

Lemma update_then_get_witness :
  ∃ record st',
    update_coupon "c-1" (CouponUpdate.validate falsy_body) bearer two_coupons
    = (Return record, st') ∧
    get_coupon "c-1" st' = (Return record, st').
Proof.
  pose (out := update_coupon "c-1" (CouponUpdate.validate falsy_body) bearer
                 two_coupons).
  pose (record := match out.1 with Return r => r | Raise _ => ∅ end).
  assert (out = (Return record, out.2)) as Hout by vm_refl.
  exists record, out.2. split; [exact Hout|].
  exact (update_then_get "c-1" (CouponUpdate.validate falsy_body) bearer
           two_coupons out.2 record Hout).
Defined.

(** ** Documents keep their shape *)

Lemma updated_lookup b (d : dict) k :
  (update_data (CouponUpdate.validate b) ∪ d) !! k
  = match provided b k with
    | Some v => Some v
    | None => d !! k
    end.
Proof.
  rewrite lookup_union, update_data_lookup.
  by destruct (provided b k), (d !! k).
Qed.

Lemma updated_text b (d : dict) k m :
  provided b k = applied VStr m →
  (∃ s, d !! k = Some (VStr s)) →
  ∃ s, (update_data (CouponUpdate.validate b) ∪ d) !! k = Some (VStr s).
Proof.
  intros Hk Hd. rewrite updated_lookup, Hk. destruct m; cbn; eauto.
Qed.

Lemma update_keeps_coupon_doc b (d : dict) :
  coupon_doc d → coupon_doc (update_data (CouponUpdate.validate b) ∪ d).
Proof.
  intros (Hid & Htext & Hlogo & Hfeat & Htime). unfold coupon_doc.
  rewrite !(lookup_union_r _ d "id") by apply update_data_id.
  rewrite !(lookup_union_r _ d "created_at") by apply update_data_created_at.
  split_and!; [done| | | |done].
  - repeat match goal with
           | H : Forall _ (_ :: _) |- _ => apply Forall_cons_1 in H as [? H]
           end.
    repeat constructor.
    + by apply (updated_text b d "store_name" (CouponUpdate.b_store_name b)).
    + by apply (updated_text b d "title" (CouponUpdate.b_title b)).
    + by apply (updated_text b d "code" (CouponUpdate.b_code b)).
    + by apply (updated_text b d "description" (CouponUpdate.b_description b)).
    + by apply (updated_text b d "category" (CouponUpdate.b_category b)).
    + by apply (updated_text b d "expiry_date" (CouponUpdate.b_expiry_date b)).
  - rewrite !updated_lookup.
    change (provided b "logo_url") with (applied VStr (CouponUpdate.b_logo_url b)).
    destruct (CouponUpdate.b_logo_url b); cbn; eauto.
  - rewrite updated_lookup.
    change (provided b "featured") with (applied VBool (CouponUpdate.b_featured b)).
    destruct (CouponUpdate.b_featured b); cbn; eauto.
Qed.

(** X12: if every stored document has the shape of a coupon document, with its
    creation time stored as the ISO text of a timestamp, this is still so
    after any create, update, delete or upload request. *)
Theorem run_keeps_coupon_docs (r : admin_request) (st : state) :
  Forall coupon_doc (coupons st) →
  draws_valid_time r →
  Forall coupon_doc (coupons (run r st).2).
Proof.
  intros Hall Htime.
  destruct (run_effect r st) as [_ [Hc|[Hc|[Hc|Hc]]]].
  - by rewrite Hc.
  - destruct Hc as (coupon & a & uuid & now & doc & -> & -> & _ & Hdoc).
    apply Forall_app. split; [done|]. constructor; [|constructor].
    by apply Hdoc.
  - destruct Hc as (i & b & a & pre & d & post & -> & Hcs & ->).
    rewrite Hcs in Hall. apply Forall_app in Hall as [Hpre Hpost].
    apply Forall_cons_1 in Hpost as [Hd Hpost].
    apply Forall_app. split; [done|]. constructor; [|done].
    by apply update_keeps_coupon_doc.
  - destruct Hc as (i & a & pre & d & post & -> & Hcs & ->).
    rewrite Hcs in Hall. apply Forall_app in Hall as [Hpre Hpost].
    apply Forall_cons_1 in Hpost as [_ Hpost].
    by apply Forall_app.
Qed.

Lemma logged_in_empty : coupons logged_in = [].
Proof. vm_refl. Qed.

Lemma one_coupon_run :
  one_coupon = (run (Create nike bearer "c-1" sample_now) logged_in).2.
Proof. vm_refl. Qed.

Lemma run_keeps_coupon_docs_witness :
  Forall coupon_doc (coupons logged_in) ∧
  draws_valid_time (Create nike bearer "c-1" sample_now) ∧
  Forall coupon_doc (coupons one_coupon).
Proof.
  assert (Forall coupon_doc (coupons logged_in)) as Hall
    by (rewrite logged_in_empty; constructor).
  split; [exact Hall|]. split; [reflexivity|].
  rewrite one_coupon_run.
  exact (run_keeps_coupon_docs (Create nike bearer "c-1" sample_now) logged_in
           Hall eq_refl).
Defined.

(** ** Reads of well-formed collections *)

Lemma mapM_result_total {A B} (f : A → result B) (P : A → Prop) (Q : B → Prop) l :
  (∀ x, P x → ∃ y, f x = Return y ∧ Q y) →
  Forall P l → ∃ k, mapM f l = Return k ∧ Forall Q k.
Proof.
  intros Hf. induction 1 as [|x l Hx Hl (k & Hk & HQ)].
  - exists []. by split; [|constructor].
  - destruct (Hf x Hx) as (y & Hy & Qy). exists (y :: k). cbn.
    rewrite Hy, Hk. by split; [|constructor].
Qed.

Lemma mapM_result_snoc {A B} (f : A → result B) l k x y :
  mapM f l = Return k → f x = Return y →
  mapM f (l ++ [x])%list = Return (k ++ [y])%list.
Proof.
  revert k. induction l as [|z l IH]; intros k; cbn.
  - intros [= <-] ->. done.
  - destruct (f z) as [z'|e]; cbn; [|done].
    destruct (mapM f l) as [k'|e]; cbn; [|done].
    intros [= <-] Hx. by rewrite (IH k' eq_refl Hx).
Qed.

Lemma read_coupon_doc (d : dict) :
  coupon_doc d → ∃ r, read_created_at d = Return r ∧ textual r.
Proof.
  intros (_ & Htext & _ & _ & t & Ht & Hc).
  exists (<["created_at" := VDatetime t]> d). split.
  - unfold read_created_at. by rewrite Hc, fromisoformat_isoformat.
  - repeat match goal with
           | H : Forall _ (_ :: _) |- _ => apply Forall_cons_1 in H as [? H]
           end.
    unfold textual. repeat constructor; rewrite lookup_insert_ne by done;
      match goal with
      | H : ∃ s, d !! ?k = Some (VStr s) |- context [d !! ?k] =>
          by destruct H as [s ->]
      end.
Qed.

Lemma selection_coupon_docs category featured st :
  Forall coupon_doc (coupons st) →
  Forall coupon_doc (take 1000 (filter (selected category featured) (coupons st))).
Proof.
  intros Hall. apply Forall_forall. intros d Hd.
  apply elem_of_take in Hd as (i & Hd & _).
  apply list_elem_of_lookup_2 in Hd.
  apply list_elem_of_filter in Hd as [_ Hd].
  rewrite Forall_forall in Hall. by apply Hall.
Qed.

(** X13: on a collection of coupon documents the public read routes raise no
    internal error: the listing always returns, for every combination of
    parameters, and the single read returns the record or raises 404. *)
Theorem reads_of_coupon_docs_succeed (lower : string → string)
    (category search : option string) (featured : option bool)
    (coupon_id : string) (st : state) :
  Forall coupon_doc (coupons st) →
  (∃ result, get_coupons lower category search featured st = (Return result, st)) ∧
  ((∃ record, get_coupon coupon_id st = (Return record, st)) ∨
   get_coupon coupon_id st = (Raise (HTTPException 404 "Coupon not found"), st)).
Proof.
  intros Hall. split.
  - rewrite get_coupons_unfold.
    destruct (mapM_result_total read_created_at coupon_doc textual _
                (λ d, read_coupon_doc d)
                (selection_coupon_docs category featured st Hall))
      as (k & -> & Htext).
    cbn [mbind result_bind]. destruct search as [[|a s]|]; cbn [truthy]; eauto.
    rewrite (comprehension_filter _ (search_match lower (String a s)) textual k
               (λ d, search_hit_textual lower (String a s) d) Htext).
    eauto.
  - destruct (get_coupon_cases coupon_id st)
      as [[_ ->]|(pre & d & post & Hc & _ & _ & ->)]; [by right|].
    left. rewrite Hc in Hall. apply Forall_app in Hall as [_ Hall].
    apply Forall_cons_1 in Hall as [Hd _].
    destruct (read_coupon_doc d Hd) as (r & -> & _). by exists r.
Qed.

Lemma one_coupon_docs : Forall coupon_doc (coupons one_coupon).
Proof.
  replace (coupons one_coupon)
    with [<["created_at" := VStr (isoformat sample_now)]>
            (Coupon.model_dump
               (Coupon.mk "c-1" "Nike" (Some "https://cdn.test/nike.png") "20% off"
                  "NIKE20" "d" "Fashion" "2025-12-31" false sample_now))]
    by (symmetry; vm_refl).
  constructor; [|constructor].
  by apply (created_coupon_doc (Coupon.mk _ _ _ _ _ _ _ _ _ _)).
Qed.

Lemma reads_of_coupon_docs_succeed_witness :
  Forall coupon_doc (coupons one_coupon) ∧
  (∃ result,
     get_coupons lower_ascii (Some "Fashion") (Some "nike") (Some false) one_coupon
     = (Return result, one_coupon)) ∧
  ((∃ record, get_coupon "c-1" one_coupon = (Return record, one_coupon)) ∨
   get_coupon "c-1" one_coupon
   = (Raise (HTTPException 404 "Coupon not found"), one_coupon)).
Proof.
  split; [exact one_coupon_docs|].
  exact (reads_of_coupon_docs_succeed lower_ascii (Some "Fashion") (Some "nike")
           (Some false) "c-1" one_coupon one_coupon_docs).
Defined.

(** ** Listing after a create *)

(** X15: a coupon created by an authorized request is the last record of a
    listing whose structured filters it satisfies, as long as fewer than
    1000 stored documents satisfy them. *)
Theorem created_coupon_is_listed (lower : string → string)
    (coupon : CouponCreate.t)
    (authorization : option string) (uuid : string) (now : datetime)
    (category : option string) (featured : option bool) (st : state) :
  authorized authorization st →
  Forall coupon_doc (coupons st) →
  Datetime.valid now = true →
  (∀ c, category = Some c → c = CouponCreate.category coupon) →
  (∀ f, featured = Some f → f = CouponCreate.featured coupon) →
  (List.length (filter (selected category featured) (coupons st)) < 1000)%nat →
  ∃ obj st' listed,
    create_coupon coupon authorization uuid now st = (Return obj, st') ∧
    get_coupons lower category None featured st' = (Return listed, st') ∧
    last listed = Some (Coupon.model_dump obj).
Proof.
  intros [token Hv] Hall Hnow Hcat Hfeat Hlen.
  assert (Forall coupon_doc (filter (selected category featured) (coupons st)))
    as Hsel.
  { apply Forall_forall. intros d [_ Hd]%list_elem_of_filter.
    rewrite Forall_forall in Hall. by apply Hall. }
  destruct (mapM_result_total read_created_at coupon_doc textual _
              (λ d, read_coupon_doc d) Hsel) as (k & Hk & _).
  eexists _, _, _. split; [exact (create_coupon_authorized _ _ token _ _ _ Hv)|].
  rewrite get_coupons_unfold. cbn [coupons].
  rewrite filter_app, filter_cons, decide_True, filter_nil.
  2:{ unfold selected. rewrite !lookup_insert_ne by done. split.
      - destruct category as [c|]; [|done]. right. by rewrite (Hcat c eq_refl).
      - destruct featured as [f|]; [|done]. by rewrite (Hfeat f eq_refl). }
  rewrite take_ge by (rewrite length_app; cbn; lia).
  match goal with
  | |- context [ (_ ++ [<["created_at" := _]> ?dump])%list ] =>
      rewrite (mapM_result_snoc _ _ _ _ _ Hk
                 (read_created_at_stored dump now Hnow eq_refl))
  end.
  cbn [mbind result_bind]. split; [reflexivity|]. apply last_snoc.
Qed.

Lemma created_coupon_is_listed_witness :
  authorized bearer one_coupon ∧ Forall coupon_doc (coupons one_coupon) ∧
  Datetime.valid sample_now = true ∧
  (List.length (filter (selected (Some "Fashion") (Some true)) (coupons one_coupon))
   < 1000)%nat ∧
  ∃ obj st' listed,
    create_coupon adidas bearer "c-2" sample_now one_coupon = (Return obj, st') ∧
    get_coupons lower_ascii (Some "Fashion") None (Some true) st'
    = (Return listed, st') ∧
    last listed = Some (Coupon.model_dump obj).
Proof.
  assert (List.length (filter (selected (Some "Fashion") (Some true))
                         (coupons one_coupon)) < 1000)%nat as Hlen
    by (apply (bool_decide_unpack _); vm_compute; exact I).
  split; [exact sample_authorized|]. split; [exact one_coupon_docs|].
  split; [reflexivity|]. split; [exact Hlen|].
  apply (created_coupon_is_listed lower_ascii adidas bearer "c-2" sample_now
           (Some "Fashion") (Some true) one_coupon sample_authorized
           one_coupon_docs eq_refl).
  - by intros c [= <-].
  - by intros f [= <-].
  - exact Hlen.
Defined.

Lemma create_coupon_collection coupon authorization uuid now st :
  coupons (create_coupon coupon authorization uuid now st).2 = coupons st ∨
  ∃ doc, coupons (create_coupon coupon authorization uuid now st).2
         = (coupons st ++ [doc])%list.
Proof.
  destruct (verify_admin_token_cases authorization st) as [[token Hv]|[e Hv]].
  - right. rewrite (create_coupon_authorized _ _ token _ _ _ Hv). by eexists.
  - left. unfold create_coupon. by rewrite (bind_raise _ _ _ _ _ Hv).
Qed.

(** X16: once 1000 stored documents satisfy the structured filters of a
    listing, a create does not change what that listing answers: the
    store keeps the new document behind the first 1000 and the listing
    never reaches it. *)
Theorem listing_cap_hides_created (lower : string → string)
    (coupon : CouponCreate.t)
    (authorization : option string) (uuid : string) (now : datetime)
    (category search : option string) (featured : option bool) (st : state) :
  (1000 ≤ List.length (filter (selected category featured) (coupons st)))%nat →
  (get_coupons lower category search featured
     (create_coupon coupon authorization uuid now st).2).1
  = (get_coupons lower category search featured st).1.
Proof.
  intros Hlen. rewrite !get_coupons_unfold. cbn [fst].
  destruct (create_coupon_collection coupon authorization uuid now st)
    as [->|[doc ->]]; [done|].
  by rewrite filter_app, take_app_le.
Qed.

Lemma listing_cap_hides_created_witness :
  (1000 ≤ List.length (filter (selected (Some "Fashion") None) (coupons crowded)))%nat ∧
  authorized bearer crowded ∧
  (get_coupons lower_ascii (Some "Fashion") (Some "adidas") None
     (create_coupon adidas bearer "c-2" sample_now crowded).2).1
  = (get_coupons lower_ascii (Some "Fashion") (Some "adidas") None crowded).1.
Proof.
  assert (1000 ≤ List.length (filter (selected (Some "Fashion") None)
                                (coupons crowded)))%nat as Hlen
    by (apply (bool_decide_unpack _); vm_compute; exact I).
  split; [exact Hlen|]. split; [exists sample_token; vm_refl|].
  exact (listing_cap_hides_created lower_ascii adidas bearer "c-2" sample_now
           (Some "Fashion") (Some "adidas") None crowded Hlen).
Defined.

Lemma mapM_result_Forall2 {A B} (f : A → result B) (R : A → B → Prop) l k :
  (∀ x y, f x = Return y → R x y) →
  mapM f l = Return k → Forall2 R l k.
Proof.
  intros Hf. revert k. induction l as [|x l IH]; intros k; cbn.
  - intros [= <-]. constructor.
  - destruct (f x) as [y|e] eqn:Hy; cbn; [|done].
    destruct (mapM f l) as [k'|e]; cbn; [|done].
    intros [= <-]. constructor; [by apply Hf|by apply IH].
Qed.

(** X17: the records of a listing are the selected stored documents, one for
    one and in store order, and the conversion on the way out touches no
    field other than [created_at]. *)
Theorem listed_records_are_stored (lower : string → string)
    (category : option string) (featured : option bool) (st : state)
    (retrieved : list dict) :
  get_coupons lower category None featured st = (Return retrieved, st) →
  Forall2 (λ d r : dict, ∀ k, k ≠ "created_at" → r !! k = d !! k)
    (take 1000 (filter (selected category featured) (coupons st))) retrieved.
Proof.
  rewrite get_coupons_unfold.
  destruct (mapM read_created_at _) as [l|e] eqn:Hl; cbn [mbind result_bind]; [|done].
  intros Heq. apply pair_equal_spec in Heq as [[= <-] _].
  apply (mapM_result_Forall2 read_created_at); [|exact Hl].
  intros d r Hr k Hk. by apply read_created_at_other.
Qed.

Lemma listed_records_are_stored_witness :
  get_coupons lower_ascii (Some "Fashion") None None two_coupons
  = (Return fashion_coupons, two_coupons) ∧
  Forall2 (λ d r : dict, ∀ k, k ≠ "created_at" → r !! k = d !! k)
    (take 1000 (filter (selected (Some "Fashion") None) (coupons two_coupons)))
    fashion_coupons.
Proof.
  assert (get_coupons lower_ascii (Some "Fashion") None None two_coupons
          = (Return fashion_coupons, two_coupons)) as Hget by vm_refl.
  split; [exact Hget|].
  exact (listed_records_are_stored lower_ascii (Some "Fashion") None two_coupons
           fashion_coupons Hget).
Defined.
